(** * currency-data-pages: the dataset merge and the derived artifacts

    A shallow embedding of the three scripts of the repository

      - [scripts/update_currency_data.py]  (month-day keyed history),
      - [scripts/update_and_deploy.py]     (full-date keyed history),
      - [scripts/bootstrap-currency-pages.py]

    and the properties of the merge, the rate fetcher, the run as a whole and
    the snapshot/metadata derivation.

    Conventions of the embedding:
      - a Python [dict] is a [gmap] (string keys, no duplicates, lookup by key);
      - a value that comes out of [json.load] or [response.json()] is a [json];
        Python's [None] is [JNull];
      - a Python [float] is a binary64 [float]; rates are only stored and
        copied, never computed with;
      - code that can raise returns a [result]; [try/except Exception] is
        [try_except_Exception];
      - every [datetime.now()] of the source is a named reading of [Clock];
        the HTTP exchange is the [network] field of the environment;
      - [strftime('%Y-%m-%d')] and [str] of a year are [strftime_Ymd] and
        [py_str], on the calendar date of a reading. *)

From Stdlib Require Import PrimFloat ZArith String Ascii OrdersEx.
From stdpp Require Import gmap strings list fin_maps pretty.

Set Warnings "-inexact-float,-register-all".
Local Open Scope string_scope.

(** ** JSON values *)

Inductive json : Type :=
| JNull
| JBool (b : bool)
| JInt (z : Z)
| JFloat (f : float)
| JStr (s : string)
| JArr (items : list json)
| JObj (members : list (string * json)).

(** [v is not None] *)
Definition is_not_None (v : json) : bool :=
  match v with JNull => false | _ => true end.

(** ** Exceptions *)

Inductive net_error := ConnectionFailed | TimedOut.

Inductive exn :=
| RequestException (why : net_error)
| HTTPError (status : nat)
| JSONDecodeError
| AttributeError
| TypeError
| KeyError (key : string)
| ValueError
| IndexError
| FileNotFoundError
| SystemExit (code : Z).

(** [SystemExit] derives from [BaseException] only; all the others are
    subclasses of [Exception]. *)
Definition is_Exception (e : exn) : bool :=
  match e with SystemExit _ => false | _ => true end.

Inductive result (A : Type) : Type :=
| Ok (a : A)
| Raise (e : exn).
Arguments Ok {A} a.
Arguments Raise {A} e.

#[global] Instance result_ret : MRet result := fun _ a => Ok a.
#[global] Instance result_bind : MBind result := fun _ _ f r =>
  match r with Ok a => f a | Raise e => Raise e end.

(** [try: body  except Exception as e: handler] *)
Definition try_except_Exception {A} (body : result A) (handler : exn -> result A)
  : result A :=
  match body with
  | Ok a => Ok a
  | Raise e => if is_Exception e then handler e else Raise e
  end.

(** ** Strings *)

(** [s[n:]] *)
Fixpoint str_slice_from (n : nat) (s : string) : string :=
  match n, s with
  | O, _ => s
  | S n', String _ rest => str_slice_from n' rest
  | S _, EmptyString => EmptyString
  end.

(** [needle in hay] for two strings: substring test. *)
Fixpoint is_substring (needle hay : string) : bool :=
  String.prefix needle hay ||
  match hay with
  | EmptyString => false
  | String _ rest => is_substring needle rest
  end.

(** ** Parsed JSON objects

    [members] lists the members in the order of the text; like [json.loads]
    the lookup keeps the last member of a repeated name. *)
Fixpoint obj_lookup (key : string) (members : list (string * json)) : option json :=
  match members with
  | [] => None
  | (k, v) :: rest =>
      match obj_lookup key rest with
      | Some w => Some w
      | None => if String.eqb key k then Some v else None
      end
  end.

(** [data.get(key, dflt)]: only a dict has [.get]. *)
Definition py_get (data : json) (key : string) (dflt : json) : result json :=
  match data with
  | JObj members => Ok (default dflt (obj_lookup key members))
  | _ => Raise AttributeError
  end.

Definition json_eq_str (key : string) (v : json) : bool :=
  match v with JStr s => String.eqb key s | _ => false end.

(** [key in container], [key] a string: key membership for a dict, element
    equality for a list, substring for a string, [TypeError] otherwise. *)
Definition py_contains (container : json) (key : string) : result bool :=
  match container with
  | JObj members => Ok (bool_decide (is_Some (obj_lookup key members)))
  | JArr items => Ok (existsb (json_eq_str key) items)
  | JStr s => Ok (is_substring key s)
  | _ => Raise TypeError
  end.

(** [container[key]], [key] a string: defined for a dict only. *)
Definition py_getitem (container : json) (key : string) : result json :=
  match container with
  | JObj members =>
      match obj_lookup key members with
      | Some v => Ok v
      | None => Raise (KeyError key)
      end
  | _ => Raise TypeError
  end.

(** [d.get(key, None)] on a dict whose values are JSON values. *)
Definition dict_get_or_None (d : gmap string json) (key : string) : json :=
  default JNull (d !! key).

(** ** Configuration *)

Inductive script := update_currency_data_py | update_and_deploy_py.

Definition DOCS_DIR (s : script) : string :=
  match s with
  | update_currency_data_py => "docs"
  | update_and_deploy_py => "../docs"
  end.

Definition TARGET_CURRENCIES : list string :=
  [ "AUD"; "CAD"; "CHF"; "CZK"; "DKK"; "GBP"; "HKD"; "HUF"; "JPY"; "KRW";
    "NOK"; "NZD"; "PLN"; "SEK"; "SGD"; "USD"; "ZAR"; "TRY"; "IDR"; "MYR";
    "PHP"; "THB"; "RON"; "MXN"; "CNY"; "BRL"; "INR"; "ILS"; "BGN" ].

(** ** The rate fetcher

    Both update scripts have the same [fetch_latest_rates_from_api].  The
    module-level [TARGET_CURRENCIES] it reads is the parameter [targets]. *)

Record response := {
  status_code : nat;
  (** the body as [response.json()] decodes it; [None]: not valid JSON *)
  body : option json
}.

(** [requests.get(CURRENCY_API_URL, timeout=10)]: a response, or a
    [RequestException] (connection failure, timeout). *)
Definition requests_get (network : net_error + response) : result response :=
  match network with
  | inl why => Raise (RequestException why)
  | inr r => Ok r
  end.

Definition raise_for_status (r : response) : result unit :=
  if bool_decide (400 ≤ status_code r < 600)
  then Raise (HTTPError (status_code r))
  else Ok tt.

Definition response_json (r : response) : result json :=
  match body r with
  | Some v => Ok v
  | None => Raise JSONDecodeError
  end.

(** The dict comprehension
    [{currency: rates[currency] for currency in TARGET_CURRENCIES if currency in rates}],
    [acc] being the dict built so far. *)
Fixpoint filter_rates (targets : list string) (rates : json)
    (acc : gmap string json) : result (gmap string json) :=
  match targets with
  | [] => Ok acc
  | currency :: rest =>
      present ← py_contains rates currency;
      if present : bool
      then v ← py_getitem rates currency;
           filter_rates rest rates (<[currency := v]> acc)
      else filter_rates rest rates acc
  end.

(** The body of the [try]. *)
Definition fetch_try (targets : list string) (network : net_error + response)
  : result (option (gmap string json)) :=
  response ← requests_get network;
  _ ← raise_for_status response;
  data ← response_json response;
  rates ← py_get data "rates" (JObj []);
  filtered_rates ← filter_rates targets rates ∅;
  Ok (Some filtered_rates).

Definition fetch_latest_rates_from_api (targets : list string)
    (network : net_error + response) : result (option (gmap string json)) :=
  try_except_Exception (fetch_try targets network) (fun _ => Ok None).

(** ** The historical dataset

    The document stored in [currency_rates.json].  The historical mapping is
    the value of the key ['rates_by_year'] in update_currency_data.py and of
    the key ['data'] in update_and_deploy.py and the bootstrap script; the
    top-level ['currencies'] exists in the first layout only, and so do the
    metadata keys ['earliest_date'] and ['latest_date']. *)

Record Metadata := {
  base_currency : string;
  currencies : list string;
  data_source : string;
  last_updated : string;
  total_records : Z;
  earliest_date : option string;
  latest_date : option string
}.

Record Dataset := {
  metadata : Metadata;
  top_currencies : option (list string);
  rates_by_year : gmap string (gmap string (list json))
}.

(** Every [datetime.now()] of [update_currency_data()], in program order. *)
Record Clock := {
  (** [load_existing_data], new structure only *)
  new_last_updated : string;
  new_earliest_date : string;
  new_latest_date : string;
  (** [today = datetime.now().strftime('%Y-%m-%d')] *)
  today : string;
  (** [current_year = str(datetime.now().year)] *)
  current_year : string;
  (** the [isoformat()] stamps of the dataset metadata, [latest.json] and
      [metadata.json] *)
  merge_stamp : string;
  latest_stamp : string;
  metadata_stamp : string
}.

(** The new structure of [load_existing_data]. *)
Definition new_structure (s : script) (targets : list string) (clk : Clock) : Dataset :=
  match s with
  | update_currency_data_py =>
      {| metadata := {| base_currency := "EUR";
                        currencies := targets;
                        data_source := "European Central Bank via exchangerate-api.com";
                        last_updated := new_last_updated clk;
                        total_records := 0;
                        earliest_date := Some (new_earliest_date clk);
                        latest_date := Some (new_latest_date clk) |};
         top_currencies := Some targets;
         rates_by_year := ∅ |}
  | update_and_deploy_py =>
      {| metadata := {| base_currency := "EUR";
                        currencies := targets;
                        data_source := "European Central Bank via exchangerate-api.com";
                        last_updated := new_last_updated clk;
                        total_records := 0;
                        earliest_date := None;
                        latest_date := None |};
         top_currencies := None;
         rates_by_year := ∅ |}
  end.

(** ** The merge: the body of [if latest_rates:] up to the metadata update *)

(** [if current_year not in data[..]: data[..][current_year] = {}] *)
Definition ensure_year (current_year : string)
    (years : gmap string (gmap string (list json)))
  : gmap string (gmap string (list json)) :=
  match years !! current_year with
  | Some _ => years
  | None => <[current_year := ∅]> years
  end.

(** The key of the day inside its year: [month_day = today[5:]] in
    update_currency_data.py, [today] itself in update_and_deploy.py. *)
Definition day_key (s : script) (today : string) : string :=
  match s with
  | update_currency_data_py => str_slice_from 5 today
  | update_and_deploy_py => today
  end.

(** The row of the day.  update_currency_data.py appends in a loop,
    update_and_deploy.py uses a list comprehension. *)
Definition rates_array (s : script) (targets : list string)
    (latest_rates : gmap string json) : list json :=
  match s with
  | update_currency_data_py =>
      foldl (fun rates_array currency =>
               (rates_array ++ [dict_get_or_None latest_rates currency])%list)
            [] targets
  | update_and_deploy_py =>
      (fun currency => dict_get_or_None latest_rates currency) <$> targets
  end.

(** [data[..][current_year][key] = row]; the year is present after
    [ensure_year]. *)
Definition assign_day (current_year key : string) (row : list json)
    (years : gmap string (gmap string (list json)))
  : gmap string (gmap string (list json)) :=
  alter (fun year_data => <[key := row]> year_data) current_year years.

(** [sum(len(year_data) for year_data in data[..].values())] *)
Definition count_records (years : gmap string (gmap string (list json))) : Z :=
  Z.of_nat (sum_list ((fun year_data : gmap string (list json) => size year_data)
                        <$> (map_to_list years).*2)).

(** [data['metadata'].update({...})], evaluated on the years as they are
    after the assignment; [stamp] is [datetime.now().isoformat()].
    update_and_deploy.py does not set ['latest_date']. *)
Definition update_metadata (s : script) (today stamp : string)
    (years : gmap string (gmap string (list json))) (m : Metadata) : Metadata :=
  match s with
  | update_currency_data_py =>
      {| base_currency := base_currency m;
         currencies := currencies m;
         data_source := data_source m;
         last_updated := stamp;
         total_records := count_records years;
         earliest_date := earliest_date m;
         latest_date := Some today |}
  | update_and_deploy_py =>
      {| base_currency := base_currency m;
         currencies := currencies m;
         data_source := data_source m;
         last_updated := stamp;
         total_records := count_records years;
         earliest_date := earliest_date m;
         latest_date := latest_date m |}
  end.

(** The merge of the day's rates into the data, on the local variables
    [today], [current_year] and the stamp read at the metadata update. *)
Definition merge (s : script) (targets : list string)
    (today current_year stamp : string)
    (latest_rates : gmap string json) (data : Dataset) : Dataset :=
  let years := ensure_year current_year (rates_by_year data) in
  let years := assign_day current_year (day_key s today)
                          (rates_array s targets latest_rates) years in
  {| metadata := update_metadata s today stamp years (metadata data);
     top_currencies := top_currencies data;
     rates_by_year := years |}.

(** ** The derived documents and the file system *)

(** [latest.json] *)
Record LatestData := {
  date : string;
  latest_base_currency : string;
  rates : gmap string json;
  latest_last_updated : string
}.

(** [metadata.json].  ['file_sizes'] is kept as the two byte counts
    [os.path.getsize] returns; their display in MB and KB, rounded to two
    decimals, is floating-point arithmetic and stays outside the model.
    ['date_range'] is written by update_currency_data.py only. *)
Record MetadataDoc := {
  doc_base_currency : string;
  supported_currencies : list string;
  total_currencies : Z;
  doc_data_source : string;
  doc_last_updated : string;
  doc_total_records : Z;
  doc_latest_date : string;
  date_range : option (string * string);
  full_data_bytes : N;
  latest_bytes : N
}.

(** What a file holds: [json.dump] followed by [json.load] gives the
    document back, so a file is identified with the document written to it. *)
Inductive document :=
| CurrencyRates (d : Dataset)
| Latest (l : LatestData)
| MetadataJson (m : MetadataDoc).

Record World := {
  directories : gset string;
  files : gmap string document
}.

Record Env := {
  clock : Clock;
  network : net_error + response;
  (** the length in bytes of the serialisation of a document *)
  serialized_size : document -> N
}.

(** [os.path.join(dir, name)] *)
Definition path_join (dir name : string) : string := dir ++ "/" ++ name.

Definition makedirs (dir : string) (w : World) : World :=
  {| directories := {[dir]} ∪ directories w; files := files w |}.

(** [with open(path, 'w') as f: json.dump(doc, f, ..)] *)
Definition write_file (path : string) (doc : document) (w : World) : World :=
  {| directories := directories w; files := <[path := doc]> (files w) |}.

(** [os.path.getsize(path)] *)
Definition getsize (env : Env) (path : string) (w : World) : result N :=
  match files w !! path with
  | Some doc => Ok (serialized_size env doc)
  | None => Raise FileNotFoundError
  end.

Definition ensure_docs_directory (s : script) (w : World) : World :=
  makedirs (DOCS_DIR s) w.

Definition currency_file (s : script) : string := path_join (DOCS_DIR s) "currency_rates.json".
Definition latest_file (s : script) : string := path_join (DOCS_DIR s) "latest.json".
Definition metadata_file (s : script) : string := path_join (DOCS_DIR s) "metadata.json".

(** [load_existing_data()]: whatever document the file holds, or the new
    structure when there is no file. *)
Definition load_existing_data (s : script) (targets : list string) (clk : Clock)
    (w : World) : document :=
  match files w !! currency_file s with
  | Some doc => doc
  | None => CurrencyRates (new_structure s targets clk)
  end.

(** Truth value of the fetch result in [if latest_rates:]: [None] and the
    empty dict are false. *)
Definition truthy (latest_rates : option (gmap string json)) : bool :=
  match latest_rates with
  | None => false
  | Some d => negb (bool_decide (d = ∅))
  end.

(** The name of the key that holds the history, missing from any other
    document than a dataset. *)
Definition history_key (s : script) : string :=
  match s with
  | update_currency_data_py => "rates_by_year"
  | update_and_deploy_py => "data"
  end.

Definition latest_data (clk : Clock) (latest_rates : gmap string json) : LatestData :=
  {| date := today clk;
     latest_base_currency := "EUR";
     rates := latest_rates;
     latest_last_updated := latest_stamp clk |}.

Definition metadata_json (s : script) (targets : list string) (clk : Clock)
    (data : Dataset) (full_size latest_size : N) : MetadataDoc :=
  {| doc_base_currency := "EUR";
     supported_currencies := "EUR" :: targets;
     total_currencies := Z.of_nat (length targets) + 1;
     doc_data_source := "European Central Bank via exchangerate-api.com";
     doc_last_updated := metadata_stamp clk;
     doc_total_records := total_records (metadata data);
     doc_latest_date := today clk;
     date_range :=
       match s with
       | update_currency_data_py =>
           Some (default (today clk) (earliest_date (metadata data)), today clk)
       | update_and_deploy_py => None
       end;
     full_data_bytes := full_size;
     latest_bytes := latest_size |}.

(** [update_currency_data()]: the world after the call, and how the call
    ended.  [if latest_rates:] is the test [truthy]; in its true branch the
    fetch result is a dict, in its false branch the call ends in [exit(1)].
    A loaded document without the history key raises [KeyError] at the first
    statement of the true branch, before any file is written. *)
Definition update_currency_data (s : script) (targets : list string) (env : Env)
    (w : World) : World * result unit :=
  let w := ensure_docs_directory s w in
  let data := load_existing_data s targets (clock env) w in
  match fetch_latest_rates_from_api targets (network env) with
  | Raise e => (w, Raise e)
  | Ok fetched =>
      match fetched with
      | Some latest_rates =>
          if truthy fetched then
            match data with
            | CurrencyRates data =>
                let clk := clock env in
                let data := merge s targets (today clk) (current_year clk)
                                  (merge_stamp clk) latest_rates data in
                let w := write_file (currency_file s) (CurrencyRates data) w in
                let w := write_file (latest_file s)
                           (Latest (latest_data (clock env) latest_rates)) w in
                match getsize env (currency_file s) w with
                | Raise e => (w, Raise e)
                | Ok full_size =>
                    match getsize env (latest_file s) w with
                    | Raise e => (w, Raise e)
                    | Ok latest_size =>
                        let metadata :=
                          metadata_json s targets (clock env) data full_size latest_size in
                        (write_file (metadata_file s) (MetadataJson metadata) w, Ok tt)
                    end
                end
            | _ => (w, Raise (KeyError (history_key s)))
            end
          else (w, Raise (SystemExit 1))
      | None => (w, Raise (SystemExit 1))
      end
  end.

(** The script run as a program: the exit code is 0 when
    [update_currency_data()] returns, the argument of [exit] on [SystemExit],
    and 1 for an uncaught exception. *)
Definition main (s : script) (targets : list string) (env : Env) (w : World)
  : World * Z :=
  match update_currency_data s targets env w with
  | (w', Ok _) => (w', 0%Z)
  | (w', Raise (SystemExit code)) => (w', code)
  | (w', Raise _) => (w', 1%Z)
  end.

(** ** bootstrap-currency-pages.py *)

(** [d[key]] on a dict *)
Definition dict_getitem {V} (d : gmap string V) (key : string) : result V :=
  match d !! key with
  | Some v => Ok v
  | None => Raise (KeyError key)
  end.

(** [l[i]] on a list, [i] not negative *)
Definition list_getitem (l : list json) (i : nat) : result json :=
  match l !! i with
  | Some v => Ok v
  | None => Raise IndexError
  end.

(** [d.keys()] *)
Definition keys {V} (d : gmap string V) : list string := (map_to_list d).*1.

(** [max(keys)] on strings: the first key is the candidate, a later key
    replaces it when it is strictly greater; [ValueError] on no key. *)
Definition py_max (ks : list string) : result string :=
  match ks with
  | [] => Raise ValueError
  | k :: rest => Ok (foldl (fun best k' => if String.ltb best k' then k' else best) k rest)
  end.

(** The loop
    [for i, currency in enumerate(currencies):
       if i < len(arr) and arr[i] is not None: latest_rates[currency] = arr[i]]
    from index [i] on; [and] evaluates [arr[i]] only when [i < len(arr)]. *)
Fixpoint latest_rates_loop (i : nat) (currencies : list string) (arr : list json)
    (latest_rates : gmap string json) : result (gmap string json) :=
  match currencies with
  | [] => Ok latest_rates
  | currency :: rest =>
      if bool_decide (i < length arr) then
        v ← list_getitem arr i;
        if is_not_None v then
          v' ← list_getitem arr i;
          latest_rates_loop (S i) rest arr (<[currency := v']> latest_rates)
        else latest_rates_loop (S i) rest arr latest_rates
      else latest_rates_loop (S i) rest arr latest_rates
  end.

(** Steps 3 and 4: the latest rates of the data and the document of
    [latest.json]. *)
Definition derive_latest_snapshot (stamp : string) (data : Dataset) : result LatestData :=
  latest_year ← py_max (keys (rates_by_year data));
  year_data ← dict_getitem (rates_by_year data) latest_year;
  latest_date ← py_max (keys year_data);
  latest_rates_array ← dict_getitem year_data latest_date;
  let currencies := currencies (metadata data) in
  latest_rates ← latest_rates_loop 0 currencies latest_rates_array ∅;
  Ok {| date := latest_date;
        latest_base_currency := "EUR";
        rates := latest_rates;
        latest_last_updated := stamp |}.

(** Step 5: the document of [metadata.json]. *)
Definition derive_metadata (stamp : string) (data : Dataset) (latest_date : string)
    (full_size latest_size : N) : MetadataDoc :=
  let currencies := currencies (metadata data) in
  {| doc_base_currency := "EUR";
     supported_currencies := "EUR" :: currencies;
     total_currencies := Z.of_nat (length currencies) + 1;
     doc_data_source := "European Central Bank via exchangerate-api.com";
     doc_last_updated := stamp;
     doc_total_records := total_records (metadata data);
     doc_latest_date := latest_date;
     date_range := None;
     full_data_bytes := full_size;
     latest_bytes := latest_size |}.

Definition source_file : string := "C:/DEV/Currency/data/currency_rates.json".
Definition docs_dir : string := "../docs".

(** [bootstrap_currency_pages()].  The stamps are [latest_stamp] and
    [metadata_stamp] of the clock. *)
Definition bootstrap_currency_pages (env : Env) (w : World) : World * result unit :=
  let w := makedirs docs_dir w in
  match files w !! source_file with
  | None => (w, Raise FileNotFoundError)
  | Some source =>
      (* shutil.copy2 *)
      let w := write_file (docs_dir ++ "/currency_rates.json") source w in
      match source with
      | CurrencyRates data =>
          match derive_latest_snapshot (latest_stamp (clock env)) data with
          | Raise e => (w, Raise e)
          | Ok latest =>
              let w := write_file (docs_dir ++ "/latest.json") (Latest latest) w in
              match getsize env (docs_dir ++ "/currency_rates.json") w with
              | Raise e => (w, Raise e)
              | Ok full_size =>
                  match getsize env (docs_dir ++ "/latest.json") w with
                  | Raise e => (w, Raise e)
                  | Ok latest_size =>
                      let metadata :=
                        derive_metadata (metadata_stamp (clock env)) data (date latest)
                                        full_size latest_size in
                      (write_file (docs_dir ++ "/metadata.json") (MetadataJson metadata) w,
                       Ok tt)
                  end
              end
          end
      | _ => (w, Raise (KeyError "data"))
      end
  end.

(** ** Vocabulary of the properties *)

(** The row stored under a year and a day-key, if any. *)
Definition lookup_row (years : gmap string (gmap string (list json)))
    (year key : string) : option (list json) :=
  years !! year ≫= (fun year_data => year_data !! key).

(** The days of a year; no day for a year that is not there. *)
Definition year_data_of (years : gmap string (gmap string (list json)))
    (year : string) : gmap string (list json) :=
  default ∅ (years !! year).

(** The data with another [last_updated]. *)
Definition restamp (stamp : string) (data : Dataset) : Dataset :=
  {| metadata := {| base_currency := base_currency (metadata data);
                    currencies := currencies (metadata data);
                    data_source := data_source (metadata data);
                    last_updated := stamp;
                    total_records := total_records (metadata data);
                    earliest_date := earliest_date (metadata data);
                    latest_date := latest_date (metadata data) |};
     top_currencies := top_currencies data;
     rates_by_year := rates_by_year data |}.

(** The (year, day-key) slots that hold a row. *)
Definition day_slots (years : gmap string (gmap string (list json)))
  : list (string * string) :=
  map_to_list years ≫= (fun yb => (fun k => (yb.1, k)) <$> keys yb.2).

(** The allow-list and the fetched rates of the end-to-end scenario. *)
Definition scenario_targets : list string := ["USD"; "GBP"; "JPY"].

Definition scenario_rates : gmap string json :=
  {[ "USD" := JFloat 1.08; "GBP" := JFloat 0.86 ]}.

(** The response the fetcher expects (the interface of the API): a JSON
    object with a member ['rates'] that is itself an object. *)
Definition expected_body (v : json) : Prop :=
  exists members rates, v = JObj members /\ obj_lookup "rates" members = Some (JObj rates).

(** A response whose body, if it decodes at all, is not the expected one. *)
Definition malformed_response (r : response) : Prop :=
  forall v, body r = Some v -> ~ expected_body v.

(** The mapping restricted to the codes of the allow-list that the response
    has. *)
Definition restricted_to (targets : list string) (rates : list (string * json))
    (m : gmap string json) : Prop :=
  forall currency,
    m !! currency = if decide (currency ∈ targets) then obj_lookup currency rates else None.

(** A scalar of JSON: [null], a boolean or a number. *)
Definition is_scalar (v : json) : bool :=
  match v with
  | JNull | JBool _ | JInt _ | JFloat _ => true
  | _ => false
  end.

(** A 200 response whose body reports an error and has no ['rates']. *)
Definition error_report : response :=
  {| status_code := 200;
     body := Some (JObj [("result", JStr "error"); ("error-type", JStr "unsupported-code")]) |}.

(** [a <= b] in the order of Python strings. *)
Definition str_le (a b : string) : Prop := String.leb a b = true.

(** [k] is the greatest key of the dict. *)
Definition greatest_key {V} (k : string) (d : gmap string V) : Prop :=
  is_Some (d !! k) /\ forall k', is_Some (d !! k') -> str_le k' k.

(** The non-null entries of a row, zipped to the names of their positions. *)
Definition non_null_entries (currencies : list string) (row : list json)
  : list (string * json) :=
  filter (fun cv : string * json => is_not_None cv.2) (zip currencies row).

(** [dict(entries)]: a later entry replaces an earlier one of the same name. *)
Definition dict_of (entries : list (string * json)) : gmap string json :=
  foldl (fun m cv => <[cv.1 := cv.2]> m) ∅ entries.

(** A dataset with at least one year and no year without a day. *)
Definition non_empty (data : Dataset) : Prop :=
  rates_by_year data <> ∅
  /\ forall year year_data, rates_by_year data !! year = Some year_data -> year_data <> ∅.

(** A dataset in the full-date layout, as the bootstrap script reads it. *)
Definition sample_dataset : Dataset :=
  {| metadata := {| base_currency := "EUR";
                    currencies := ["USD"; "GBP"; "JPY"];
                    data_source := "European Central Bank via exchangerate-api.com";
                    last_updated := "2024-03-15T06:00:00";
                    total_records := 3;
                    earliest_date := None;
                    latest_date := None |};
     top_currencies := None;
     rates_by_year :=
       {[ "2023" := {[ "2023-12-29" := [JFloat 1.1; JFloat 0.87; JFloat 156.3] ]};
          "2024" := {[ "2024-03-14" := [JFloat 1.09; JFloat 0.85; JFloat 161.2];
                       "2024-03-15" := [JFloat 1.08; JFloat 0.86; JNull] ]} ]} |}.

(** The base currency listed among the currencies of the data. *)
Definition dataset_listing_base : Dataset :=
  {| metadata := {| base_currency := "EUR";
                    currencies := ["EUR"; "USD"];
                    data_source := "European Central Bank via exchangerate-api.com";
                    last_updated := "2024-03-15T06:00:00";
                    total_records := 1;
                    earliest_date := None;
                    latest_date := None |};
     top_currencies := None;
     rates_by_year := {[ "2024" := {[ "2024-03-15" := [JFloat 1.0; JFloat 1.08] ]} ]} |}.

(** A clock, a response of the API, and the environments and worlds of the
    examples. *)
Definition sample_clock : Clock :=
  {| new_last_updated := "2024-03-15T06:00:00.000001";
     new_earliest_date := "2024-03-15";
     new_latest_date := "2024-03-15";
     today := "2024-03-15";
     current_year := "2024";
     merge_stamp := "2024-03-15T06:00:01.000002";
     latest_stamp := "2024-03-15T06:00:01.000003";
     metadata_stamp := "2024-03-15T06:00:01.000004" |}.

Definition api_response : response :=
  {| status_code := 200;
     body := Some (JObj [("base", JStr "EUR");
                         ("rates", JObj [("USD", JFloat 1.08);
                                         ("XAU", JFloat 0.0005);
                                         ("GBP", JFloat 0.86)])]) |}.

Definition env_with (network : net_error + response) : Env :=
  {| clock := sample_clock;
     network := network;
     serialized_size := fun _ => 0%N |}.

Definition empty_world : World := {| directories := ∅; files := ∅ |}.

Definition world_with_dataset : World :=
  {| directories := {[ "docs" ]};
     files := {[ "docs/currency_rates.json" := CurrencyRates sample_dataset ]} |}.

(** ** Reachable datasets and the dates of the clock *)

(** The datasets an update script can hold: the new structure of
    [load_existing_data], and the merge of a fetch result that passed
    [if latest_rates:] into a dataset it can hold. *)
Inductive reachable (s : script) (targets : list string) : Dataset -> Prop :=
| reachable_new clk :
    reachable s targets (new_structure s targets clk)
| reachable_merge today current_year stamp latest_rates data :
    latest_rates <> ∅ ->
    reachable s targets data ->
    reachable s targets (merge s targets today current_year stamp latest_rates data).

(** The calendar date of a reading of [datetime.now()]. *)
Record datetime := { dt_year : nat; dt_month : nat; dt_day : nat }.

(** [str(n)], [n] a natural number *)
Definition py_str (n : nat) : string := pretty n.

(** The fields [%m] and [%d] of [strftime]: two digits, padded with a zero. *)
Definition zero_padded2 (n : nat) : string :=
  if Nat.ltb n 10 then "0" ++ py_str n else py_str n.

(** [dt.strftime('%Y-%m-%d')]; [%Y] is the year in decimal, four digits from
    the year 1000 on. *)
Definition strftime_Ymd (dt : datetime) : string :=
  py_str (dt_year dt) ++ "-" ++ zero_padded2 (dt_month dt) ++ "-" ++ zero_padded2 (dt_day dt).

(** A date with a four-digit year. *)
Definition four_digit_date (dt : datetime) : Prop :=
  1000 <= dt_year dt < 10 * 1000 /\ 1 <= dt_month dt <= 12 /\ 1 <= dt_day dt <= 31.

(** The order of the calendar. *)
Definition date_compare (d1 d2 : datetime) : comparison :=
  match Nat.compare (dt_year d1) (dt_year d2) with
  | Eq => match Nat.compare (dt_month d1) (dt_month d2) with
          | Eq => Nat.compare (dt_day d1) (dt_day d2)
          | c => c
          end
  | c => c
  end.

(** Equality of two comparisons, as a boolean. *)
Definition comparison_eqb (c1 c2 : comparison) : bool :=
  match c1, c2 with
  | Eq, Eq | Lt, Lt | Gt, Gt => true
  | _, _ => false
  end.

(** The dataset file is absent or holds a dataset the script can hold. *)
Definition dataset_file_ok (s : script) (targets : list string) (w : World) : Prop :=
  match files w !! currency_file s with
  | None => True
  | Some (CurrencyRates data) => reachable s targets data
  | Some _ => False
  end.

(** * Properties *)

Section merge_facts.

Implicit Types (years : gmap string (gmap string (list json))).
Implicit Types (year key : string) (row : list json).

Lemma ensure_year_present year years :
  ensure_year year years !! year = Some (year_data_of years year).
Proof.
  unfold ensure_year, year_data_of.
  destruct (years !! year) as [b|] eqn:E; simpl.
  - exact E.
  - apply lookup_insert_eq.
Qed.

Lemma ensure_year_other year year' years :
  year ≠ year' -> ensure_year year years !! year' = years !! year'.
Proof.
  intros Hne. unfold ensure_year.
  destruct (years !! year); [done|]. by rewrite lookup_insert_ne.
Qed.

Lemma assign_after_ensure year key row years :
  assign_day year key row (ensure_year year years)
  = <[year := <[key := row]> (year_data_of years year)]> years.
Proof.
  apply map_eq. intros j. unfold assign_day.
  destruct (decide (year = j)) as [<-|Hne].
  - by rewrite lookup_alter_eq, ensure_year_present, lookup_insert_eq.
  - by rewrite lookup_alter_ne, ensure_year_other, lookup_insert_ne.
Qed.

Lemma rates_array_loop_fmap latest_rates targets acc :
  foldl (fun rates_array currency =>
           (rates_array ++ [dict_get_or_None latest_rates currency])%list)
        acc targets
  = (acc ++ (dict_get_or_None latest_rates <$> targets))%list.
Proof.
  revert acc. induction targets as [|c cs IH]; intros acc; simpl.
  - by rewrite app_nil_r.
  - rewrite IH. by rewrite <- app_assoc.
Qed.

Lemma rates_array_fmap s targets latest_rates :
  rates_array s targets latest_rates = dict_get_or_None latest_rates <$> targets.
Proof.
  destruct s; simpl; [|done]. apply rates_array_loop_fmap.
Qed.

Lemma merge_years s targets today current_year stamp latest_rates data :
  rates_by_year (merge s targets today current_year stamp latest_rates data)
  = <[current_year := <[day_key s today := rates_array s targets latest_rates]>
                        (year_data_of (rates_by_year data) current_year)]>
      (rates_by_year data).
Proof. apply assign_after_ensure. Qed.

Lemma count_records_insert year (b : gmap string (list json)) years :
  count_records (<[year := b]> years)
  = (Z.of_nat (size b) + count_records (delete year years))%Z.
Proof.
  unfold count_records.
  rewrite <- insert_delete_eq.
  rewrite (map_to_list_insert (delete year years) year b) by apply lookup_delete_eq.
  rewrite !fmap_cons. cbn [sum_list_with snd id]. apply Nat2Z.inj_add.
Qed.

Lemma count_records_split year years :
  count_records years
  = (Z.of_nat (size (year_data_of years year)) + count_records (delete year years))%Z.
Proof.
  unfold year_data_of. destruct (years !! year) as [b|] eqn:E; simpl.
  - rewrite <- (insert_id years year b E) at 1. apply count_records_insert.
  - rewrite map_size_empty, delete_id by done. lia.
Qed.

Lemma lookup_row_year_data years year key :
  lookup_row years year key = year_data_of years year !! key.
Proof.
  unfold lookup_row, year_data_of. destruct (years !! year); simpl; [done|].
  by rewrite lookup_empty.
Qed.

End merge_facts.

Lemma merge_merge_years s targets today current_year stamp1 stamp2 latest_rates data :
  rates_by_year (merge s targets today current_year stamp2 latest_rates
                   (merge s targets today current_year stamp1 latest_rates data))
  = rates_by_year (merge s targets today current_year stamp1 latest_rates data).
Proof.
  rewrite (merge_years _ _ _ _ stamp2). rewrite !merge_years.
  unfold year_data_of at 1. rewrite lookup_insert_eq. simpl.
  by rewrite !insert_insert_eq.
Qed.

Lemma merge_eq s targets today current_year stamp latest_rates data :
  merge s targets today current_year stamp latest_rates data
  = {| metadata := update_metadata s today stamp
                     (rates_by_year (merge s targets today current_year stamp latest_rates data))
                     (metadata data);
       top_currencies := top_currencies data;
       rates_by_year := rates_by_year (merge s targets today current_year stamp latest_rates data) |}.
Proof. reflexivity. Qed.

(** ** C1: the merge is idempotent

    C1.  Merging the same day and the same fetched rates a second time gives
    the dataset that one merge gives: the result of the second merge is the
    single merge at the second stamp, it differs from the first result in
    [last_updated] alone ([restamp]) and not at all when the stamps agree;
    the years, the row of the slot, the number of days of the year and
    [total_records] are those of the first merge. *)
Theorem merge_idempotent s targets today current_year stamp1 stamp2 latest_rates data :
  let once := merge s targets today current_year stamp1 latest_rates data in
  let twice := merge s targets today current_year stamp2 latest_rates once in
  twice = merge s targets today current_year stamp2 latest_rates data
  /\ twice = restamp stamp2 once
  /\ (stamp1 = stamp2 -> twice = once)
  /\ rates_by_year twice = rates_by_year once
  /\ lookup_row (rates_by_year twice) current_year (day_key s today)
     = Some (rates_array s targets latest_rates)
  /\ size (year_data_of (rates_by_year twice) current_year)
     = size (year_data_of (rates_by_year once) current_year)
  /\ total_records (metadata twice) = total_records (metadata once).
Proof.
  intros once twice.
  assert (Hy : rates_by_year twice = rates_by_year once) by apply merge_merge_years.
  assert (Hr : twice = restamp stamp2 once).
  { unfold twice. rewrite merge_eq. fold twice. rewrite Hy.
    unfold restamp, once. destruct s; reflexivity. }
  split; [|split; [exact Hr|split; [|split; [exact Hy|split; [|split]]]]].
  - rewrite Hr. unfold once.
    rewrite (merge_eq _ _ _ _ stamp2), (merge_eq _ _ _ _ stamp1).
    rewrite !merge_years. unfold restamp. destruct s; reflexivity.
  - intros ->. rewrite Hr. unfold restamp, once.
    rewrite (merge_eq _ _ _ _ stamp2) at 2. destruct s; reflexivity.
  - rewrite Hy. unfold once. rewrite merge_years, lookup_row_year_data.
    unfold year_data_of at 1. rewrite lookup_insert_eq. simpl.
    apply lookup_insert_eq.
  - by rewrite Hy.
  - rewrite Hr. reflexivity.
Qed.

Lemma elem_of_day_slots years year key :
  (year, key) ∈ day_slots years <-> is_Some (lookup_row years year key).
Proof.
  unfold day_slots, lookup_row, keys. rewrite list_elem_of_bind. split.
  - intros [[y b] [Hk Hy]]. simpl in Hk.
    apply list_elem_of_fmap in Hk as [k [Heq Hk]]. injection Heq as -> ->.
    apply list_elem_of_fmap in Hk as [[k' row] [-> Hk]].
    apply elem_of_map_to_list in Hy, Hk. rewrite Hy. simpl. eauto.
  - intros [row Hrow]. destruct (years !! year) as [b|] eqn:Hy; [|done].
    simpl in Hrow. exists (year, b). split.
    + simpl. apply list_elem_of_fmap. exists key. split; [done|].
      apply list_elem_of_fmap. exists (key, row). split; [done|].
      by apply elem_of_map_to_list.
    + by apply elem_of_map_to_list.
Qed.

Lemma NoDup_day_slots years : NoDup (day_slots years).
Proof.
  unfold day_slots. apply NoDup_bind.
  - intros [y1 b1] [y2 b2] [y k] H1 H2 Hk1 Hk2. simpl in *.
    apply list_elem_of_fmap in Hk1 as [k1 [Heq1 _]].
    apply list_elem_of_fmap in Hk2 as [k2 [Heq2 _]].
    injection Heq1 as -> ->. injection Heq2 as -> ->.
    apply elem_of_map_to_list in H1, H2. congruence.
  - intros [y b] _. simpl. apply NoDup_fmap_2.
    + intros k1 k2 Heq. congruence.
    + apply NoDup_fst_map_to_list.
  - apply NoDup_map_to_list.
Qed.

Lemma length_day_slots years :
  Z.of_nat (length (day_slots years)) = count_records years.
Proof.
  unfold day_slots, count_records. f_equal.
  induction (map_to_list years) as [|[y b] l IH]; [done|].
  rewrite !fmap_cons. cbn [sum_list_with snd id mbind list_bind].
  rewrite length_app, IH. f_equal.
  unfold keys. by rewrite !length_fmap, length_map_to_list.
Qed.

(** ** C2: the record count

    [count_records] is the number of slots that hold a row. *)

Lemma count_records_merge s targets today current_year stamp latest_rates data :
  count_records (rates_by_year (merge s targets today current_year stamp latest_rates data))
  = (count_records (rates_by_year data)
     + match lookup_row (rates_by_year data) current_year (day_key s today) with
       | Some _ => 0
       | None => 1
       end)%Z.
Proof.
  rewrite merge_years, count_records_insert.
  rewrite (count_records_split current_year (rates_by_year data)).
  rewrite lookup_row_year_data, map_size_insert.
  destruct (year_data_of (rates_by_year data) current_year !! day_key s today).
  all: unfold id; rewrite ?Nat2Z.inj_succ.
  all: set (n := Z.of_nat _); set (c := count_records _); lia.
Qed.

Lemma count_records_empty : count_records ∅ = 0%Z.
Proof. unfold count_records. by rewrite map_to_list_empty. Qed.

Lemma merge_total_records s targets today current_year stamp latest_rates data :
  total_records (metadata (merge s targets today current_year stamp latest_rates data))
  = count_records (rates_by_year (merge s targets today current_year stamp latest_rates data)).
Proof. rewrite merge_eq at 1. destruct s; reflexivity. Qed.

Lemma merge_new_structure_total s targets today current_year stamp latest_rates clk :
  total_records
    (metadata (merge s targets today current_year stamp latest_rates
                 (new_structure s targets clk))) = 1%Z.
Proof.
  rewrite merge_total_records, count_records_merge.
  assert (Hnew : rates_by_year (new_structure s targets clk) = ∅) by (destruct s; reflexivity).
  rewrite Hnew, count_records_empty. unfold lookup_row. by rewrite lookup_empty.
Qed.

(** C2.  After every merge [total_records] is the sum over the years of the
    number of day-keys of the year, computed on the years as they are after
    the assignment: it is the number of slots that hold a row, it does not
    depend on the counter or any other metadata the data had before, it is
    the old sum plus one exactly when the slot is new, and it is 1 after the
    first merge into the new structure. *)
Theorem total_records_is_sum s targets today current_year stamp latest_rates data :
  let merged := merge s targets today current_year stamp latest_rates data in
  total_records (metadata merged)
  = Z.of_nat (sum_list ((fun year_data : gmap string (list json) => size year_data)
                          <$> (map_to_list (rates_by_year merged)).*2))
  /\ total_records (metadata merged) = Z.of_nat (length (day_slots (rates_by_year merged)))
  /\ (forall data',
        rates_by_year data' = rates_by_year data ->
        total_records (metadata (merge s targets today current_year stamp latest_rates data'))
        = total_records (metadata merged))
  /\ total_records (metadata merged)
     = (count_records (rates_by_year data)
        + match lookup_row (rates_by_year data) current_year (day_key s today) with
          | Some _ => 0
          | None => 1
          end)%Z
  /\ (forall clk,
        total_records
          (metadata (merge s targets today current_year stamp latest_rates
                       (new_structure s targets clk))) = 1%Z).
Proof.
  intros merged. unfold merged. repeat split.
  - rewrite merge_total_records. reflexivity.
  - rewrite merge_total_records. symmetry. apply length_day_slots.
  - intros data' Hsame. rewrite !merge_total_records, !merge_years. by rewrite Hsame.
  - rewrite merge_total_records. apply count_records_merge.
  - intros clk. apply merge_new_structure_total.
Qed.

(** ** C3: positional alignment of the row

    C3.  The row the merge stores in the slot of the day has the length of
    the allow-list, and position [i] holds the fetched rate of the [i]-th
    currency of the allow-list when the fetch has one and null otherwise;
    there is no position beyond the allow-list.  The allow-list is the
    currency list of a dataset the script has created, and the merge keeps
    the currency list of the data. *)
Theorem rates_array_aligned s targets today current_year stamp latest_rates data :
  let row := rates_array s targets latest_rates in
  lookup_row (rates_by_year (merge s targets today current_year stamp latest_rates data))
             current_year (day_key s today) = Some row
  /\ length row = length targets
  /\ (forall i currency,
        targets !! i = Some currency ->
        row !! i = Some (match latest_rates !! currency with
                         | Some rate => rate
                         | None => JNull
                         end))
  /\ (forall i, length targets <= i -> row !! i = None)
  /\ currencies (metadata (merge s targets today current_year stamp latest_rates data))
     = currencies (metadata data)
  /\ (forall clk, currencies (metadata (new_structure s targets clk)) = targets).
Proof.
  intros row. unfold row. rewrite rates_array_fmap.
  split; [|split; [|split; [|split; [|split]]]]; cycle 4.
  { destruct s; reflexivity. }
  { intros clk. destruct s; reflexivity. }
  - rewrite merge_years, lookup_row_year_data. unfold year_data_of at 1.
    rewrite lookup_insert_eq. simpl. rewrite rates_array_fmap. apply lookup_insert_eq.
  - apply length_fmap.
  - intros i currency Hi. rewrite list_lookup_fmap, Hi. reflexivity.
  - intros i Hi. apply lookup_ge_None. by rewrite length_fmap.
Qed.

Example month_day_key : day_key update_currency_data_py "2024-03-15" = "03-15".
Proof. reflexivity. Qed.

Example row_of_the_target_currencies :
  rates_array update_currency_data_py TARGET_CURRENCIES scenario_rates
  = (replicate 5 JNull ++ [JFloat 0.86] ++ replicate 9 JNull ++ [JFloat 1.08]
     ++ replicate 13 JNull)%list.
Proof. reflexivity. Qed.

(** ** C9: what the merge leaves alone

    C9.  The merge changes the slot of the day only: every other year is the
    year it was, every other slot holds the row it held, and the currency
    lists, the base currency, the data source and the earliest date of the
    data are unchanged. *)
Theorem merge_frame s targets today current_year stamp latest_rates data :
  let merged := merge s targets today current_year stamp latest_rates data in
  (forall year, year <> current_year ->
      rates_by_year merged !! year = rates_by_year data !! year)
  /\ (forall year key, (year, key) <> (current_year, day_key s today) ->
        lookup_row (rates_by_year merged) year key
        = lookup_row (rates_by_year data) year key)
  /\ currencies (metadata merged) = currencies (metadata data)
  /\ top_currencies merged = top_currencies data
  /\ base_currency (metadata merged) = base_currency (metadata data)
  /\ data_source (metadata merged) = data_source (metadata data)
  /\ earliest_date (metadata merged) = earliest_date (metadata data).
Proof.
  intros merged. unfold merged. split; [|split].
  - intros year Hne. rewrite merge_years. by rewrite lookup_insert_ne.
  - intros year key Hne. rewrite merge_years, !lookup_row_year_data.
    destruct (decide (year = current_year)) as [->|Hy].
    + unfold year_data_of at 1. rewrite lookup_insert_eq. simpl.
      rewrite lookup_insert_ne; [done|]. congruence.
    + unfold year_data_of. by rewrite lookup_insert_ne.
  - rewrite merge_eq. destruct s; repeat split; reflexivity.
Qed.

Lemma update_run_success s targets env w latest_rates data :
  fetch_latest_rates_from_api targets (network env) = Ok (Some latest_rates) ->
  latest_rates <> ∅ ->
  load_existing_data s targets (clock env) (ensure_docs_directory s w) = CurrencyRates data ->
  let clk := clock env in
  let merged := merge s targets (today clk) (current_year clk) (merge_stamp clk)
                      latest_rates data in
  let latest := latest_data clk latest_rates in
  exists w' full_size latest_size,
    main s targets env w = (w', 0%Z)
    /\ files w' !! currency_file s = Some (CurrencyRates merged)
    /\ files w' !! latest_file s = Some (Latest latest)
    /\ files w' !! metadata_file s
       = Some (MetadataJson (metadata_json s targets clk merged full_size latest_size)).
Proof.
  intros Hfetch Hne Hload clk merged latest.
  unfold main, update_currency_data. rewrite Hfetch, Hload. simpl.
  rewrite bool_decide_eq_false_2 by done. simpl.
  unfold getsize. simpl.
  assert (Hcl : currency_file s <> latest_file s) by (destruct s; done).
  assert (Hcm : currency_file s <> metadata_file s) by (destruct s; done).
  assert (Hlm : latest_file s <> metadata_file s) by (destruct s; done).
  rewrite (lookup_insert_ne _ (latest_file s) (currency_file s)) by done.
  rewrite !lookup_insert_eq.
  eexists _, _, _. split; [reflexivity|]. simpl.
  rewrite (lookup_insert_ne _ (metadata_file s) (currency_file s)) by done.
  rewrite (lookup_insert_ne _ (latest_file s) (currency_file s)) by done.
  rewrite (lookup_insert_ne _ (metadata_file s) (latest_file s)) by done.
  rewrite !lookup_insert_eq. done.
Qed.

(** ** C4: the end-to-end scenario

    C4.  From the new structure, with the allow-list USD, GBP, JPY, the
    fetched rates USD 1.08 and GBP 0.86 and the date 2024-03-15, the merge of
    update_currency_data.py gives the single row [1.08, 0.86, null] under
    year 2024 and day 03-15 and [total_records] 1; the latest snapshot has
    the date and the two fetched rates, JPY absent; and a run without a
    dataset file writes exactly these and exits with code 0. *)
Theorem end_to_end_scenario (clk : Clock) (stamp : string) :
  let s := update_currency_data_py in
  let empty := new_structure s scenario_targets clk in
  let merged := merge s scenario_targets "2024-03-15" "2024" stamp scenario_rates empty in
  rates_by_year empty = ∅
  /\ total_records (metadata empty) = 0%Z
  /\ rates_by_year merged
     = {[ "2024" := {[ "03-15" := [JFloat 1.08; JFloat 0.86; JNull] ]} ]}
  /\ lookup_row (rates_by_year merged) "2024" "03-15"
     = Some [JFloat 1.08; JFloat 0.86; JNull]
  /\ total_records (metadata merged) = 1%Z
  /\ (forall clk',
        today clk' = "2024-03-15" ->
        latest_data clk' scenario_rates
        = {| date := "2024-03-15";
             latest_base_currency := "EUR";
             rates := {[ "USD" := JFloat 1.08; "GBP" := JFloat 0.86 ]};
             latest_last_updated := latest_stamp clk' |})
  /\ scenario_rates !! "JPY" = None
  /\ (forall env w,
        files w !! currency_file s = None ->
        today (clock env) = "2024-03-15" ->
        current_year (clock env) = "2024" ->
        fetch_latest_rates_from_api scenario_targets (network env)
        = Ok (Some scenario_rates) ->
        exists w' d l,
          main s scenario_targets env w = (w', 0%Z)
          /\ files w' !! currency_file s = Some (CurrencyRates d)
          /\ lookup_row (rates_by_year d) "2024" "03-15"
             = Some [JFloat 1.08; JFloat 0.86; JNull]
          /\ total_records (metadata d) = 1%Z
          /\ files w' !! latest_file s = Some (Latest l)
          /\ date l = "2024-03-15"
          /\ rates l = scenario_rates).
Proof.
  intros s empty merged.
  assert (Hyears : rates_by_year merged
                   = {[ "2024" := {[ "03-15" := [JFloat 1.08; JFloat 0.86; JNull] ]} ]}).
  { unfold merged. rewrite merge_years. reflexivity. }
  assert (Hrow : lookup_row (rates_by_year merged) "2024" "03-15"
                 = Some [JFloat 1.08; JFloat 0.86; JNull]).
  { rewrite Hyears. reflexivity. }
  assert (Htotal : total_records (metadata merged) = 1%Z).
  { apply merge_new_structure_total. }
  split; [reflexivity|]. split; [reflexivity|]. split; [exact Hyears|].
  split; [exact Hrow|]. split; [exact Htotal|].
  split; [|split; [reflexivity|]].
  - intros clk' Htoday. unfold latest_data. by rewrite Htoday.
  - intros env w Hnofile Htoday Hyear Hfetch.
    assert (Hload : load_existing_data s scenario_targets (clock env) (ensure_docs_directory s w)
                    = CurrencyRates (new_structure s scenario_targets (clock env))).
    { unfold load_existing_data. simpl. by rewrite Hnofile. }
    destruct (update_run_success s scenario_targets env w scenario_rates _ Hfetch
                ltac:(done) Hload) as (w' & fs & ls & Hmain & Hc & Hl & _).
    exists w'. eexists _, _. split; [exact Hmain|]. split; [exact Hc|].
    rewrite Htoday, Hyear.
    split; [|split; [|split; [exact Hl|split; [simpl; exact Htoday|reflexivity]]]].
    + rewrite merge_years. reflexivity.
    + apply merge_new_structure_total.
Qed.

Example scenario_fetch :
  fetch_latest_rates_from_api scenario_targets (inr api_response) = Ok (Some scenario_rates).
Proof. vm_compute. reflexivity. Qed.

Example scenario_run :
  let run := main update_currency_data_py scenario_targets (env_with (inr api_response))
                  empty_world in
  run.2 = 0%Z
  /\ directories run.1 = {[ "docs" ]}
  /\ files run.1 !! "docs/currency_rates.json"
     = Some (CurrencyRates
               {| metadata := {| base_currency := "EUR";
                                 currencies := ["USD"; "GBP"; "JPY"];
                                 data_source := "European Central Bank via exchangerate-api.com";
                                 last_updated := "2024-03-15T06:00:01.000002";
                                 total_records := 1;
                                 earliest_date := Some "2024-03-15";
                                 latest_date := Some "2024-03-15" |};
                  top_currencies := Some ["USD"; "GBP"; "JPY"];
                  rates_by_year :=
                    {[ "2024" := {[ "03-15" := [JFloat 1.08; JFloat 0.86; JNull] ]} ]} |})
  /\ files run.1 !! "docs/latest.json"
     = Some (Latest {| date := "2024-03-15";
                       latest_base_currency := "EUR";
                       rates := {[ "USD" := JFloat 1.08; "GBP" := JFloat 0.86 ]};
                       latest_last_updated := "2024-03-15T06:00:01.000003" |})
  /\ (exists doc, files run.1 !! "docs/metadata.json" = Some (MetadataJson doc)
                  /\ doc_total_records doc = 1%Z
                  /\ supported_currencies doc = ["EUR"; "USD"; "GBP"; "JPY"]).
Proof.
  vm_compute. repeat split. eexists. repeat split.
Qed.

(** ** C5: no write on a failed fetch, exit codes

    C5.  When the fetch gives [None] or the empty dict, the run leaves every
    file as it was (the dataset file, [latest.json] and [metadata.json]
    included) and exits with code 1; when it gives a non-empty dict and the
    data loads, the run exits with code 0 and the three files are written. *)
Theorem no_write_on_failed_fetch s targets env w :
  (forall fetched,
      fetch_latest_rates_from_api targets (network env) = Ok fetched ->
      fetched = None \/ fetched = Some ∅ ->
      files (main s targets env w).1 = files w
      /\ files (main s targets env w).1 !! currency_file s = files w !! currency_file s
      /\ files (main s targets env w).1 !! latest_file s = files w !! latest_file s
      /\ files (main s targets env w).1 !! metadata_file s = files w !! metadata_file s
      /\ (main s targets env w).2 = 1%Z
      /\ (main s targets env w).2 <> 0%Z)
  /\ (forall latest_rates data,
        fetch_latest_rates_from_api targets (network env) = Ok (Some latest_rates) ->
        latest_rates <> ∅ ->
        load_existing_data s targets (clock env) (ensure_docs_directory s w)
        = CurrencyRates data ->
        (main s targets env w).2 = 0%Z
        /\ is_Some (files (main s targets env w).1 !! currency_file s)
        /\ is_Some (files (main s targets env w).1 !! latest_file s)
        /\ is_Some (files (main s targets env w).1 !! metadata_file s)).
Proof.
  split.
  - intros fetched Hfetch Hempty.
    assert (Hmain : main s targets env w = (ensure_docs_directory s w, 1%Z)).
    { unfold main, update_currency_data. rewrite Hfetch.
      destruct Hempty as [->| ->]; [reflexivity|].
      simpl. rewrite bool_decide_eq_true_2 by done. reflexivity. }
    rewrite Hmain. simpl. repeat split; done.
  - intros latest_rates data Hfetch Hne Hload.
    destruct (update_run_success s targets env w latest_rates data Hfetch Hne Hload)
      as (w' & fs & ls & Hmain & Hc & Hl & Hm).
    rewrite Hmain. simpl. rewrite Hc, Hl, Hm. eauto.
Qed.

Lemma filter_rates_object rates targets acc :
  exists m,
    filter_rates targets (JObj rates) acc = Ok m
    /\ forall currency,
         m !! currency
         = match (if decide (currency ∈ targets) then obj_lookup currency rates else None) with
           | Some v => Some v
           | None => acc !! currency
           end.
Proof.
  revert acc. induction targets as [|t rest IH]; intros acc.
  - exists acc. split; [done|]. intros c. rewrite decide_False; [done|]. apply not_elem_of_nil.
  - cbn [filter_rates py_contains py_getitem mbind result_bind].
    destruct (obj_lookup t rates) as [v|] eqn:Ht.
    + rewrite bool_decide_eq_true_2 by eauto.
      destruct (IH (<[t := v]> acc)) as [m [Hm Hlook]].
      exists m. split; [exact Hm|]. intros c. rewrite Hlook.
      destruct (decide (c = t)) as [->|Hne].
      * rewrite (decide_True (P := t ∈ t :: rest)) by apply list_elem_of_here.
        rewrite Ht, lookup_insert_eq. by destruct (decide (t ∈ rest)).
      * rewrite lookup_insert_ne by done.
        destruct (decide (c ∈ rest)) as [Hin|Hnin].
        -- rewrite decide_True; [done|]. by apply list_elem_of_further.
        -- rewrite decide_False; [done|]. rewrite elem_of_cons. tauto.
    + rewrite bool_decide_eq_false_2 by (intros [? ?]; done).
      destruct (IH acc) as [m [Hm Hlook]].
      exists m. split; [exact Hm|]. intros c. rewrite Hlook.
      destruct (decide (c = t)) as [->|Hne].
      * rewrite (decide_True (P := t ∈ t :: rest)) by apply list_elem_of_here.
        rewrite Ht. by destruct (decide (t ∈ rest)).
      * destruct (decide (c ∈ rest)) as [Hin|Hnin].
        -- rewrite decide_True; [done|]. by apply list_elem_of_further.
        -- rewrite decide_False; [done|]. rewrite elem_of_cons. tauto.
Qed.

Lemma fetch_total targets network :
  exists fetched, fetch_latest_rates_from_api targets network = Ok fetched.
Proof.
  unfold fetch_latest_rates_from_api, try_except_Exception.
  destruct (fetch_try targets network) as [a|e] eqn:Htry; [eauto|].
  assert (He : is_Exception e = true).
  { unfold fetch_try in Htry.
    destruct network as [why|r]; simpl in Htry; [by inversion Htry|].
    unfold raise_for_status in Htry.
    destruct (bool_decide (400 ≤ status_code r < 600)); simpl in Htry; [by inversion Htry|].
    unfold response_json in Htry.
    destruct (body r) as [v|]; simpl in Htry; [|by inversion Htry].
    destruct (py_get v "rates" (JObj [])) as [rates|e'] eqn:Hget; simpl in Htry.
    - clear Hget. revert Htry. generalize (∅ : gmap string json).
      induction targets as [|t rest IH]; intros acc Htry; simpl in Htry; [done|].
      destruct (py_contains rates t) as [b|e'] eqn:Hc; simpl in Htry.
      + destruct b.
        * destruct (py_getitem rates t) as [x|e'] eqn:Hg; simpl in Htry.
          -- by apply (IH _ Htry).
          -- inversion Htry; subst. destruct rates; simpl in Hg; try (by inversion Hg).
             destruct (obj_lookup t members); by inversion Hg.
        * by apply (IH _ Htry).
      + inversion Htry; subst. destruct rates; simpl in Hc; by inversion Hc.
    - inversion Htry; subst. destruct v; simpl in Hget; by inversion Hget. }
  rewrite He. eauto.
Qed.

Lemma fetch_try_response targets r v :
  ~ (400 ≤ status_code r < 600) ->
  body r = Some v ->
  fetch_try targets (inr r)
  = (rates ← py_get v "rates" (JObj []);
     filtered_rates ← filter_rates targets rates ∅;
     Ok (Some filtered_rates)).
Proof.
  intros Hstatus Hbody. unfold fetch_try, raise_for_status, response_json. simpl.
  rewrite bool_decide_eq_false_2 by done. simpl. by rewrite Hbody.
Qed.

Example failed_run_keeps_the_files :
  main update_currency_data_py TARGET_CURRENCIES (env_with (inl TimedOut)) world_with_dataset
  = (world_with_dataset, 1%Z).
Proof. vm_compute. reflexivity. Qed.

Example empty_rates_run_keeps_the_files :
  main update_currency_data_py TARGET_CURRENCIES (env_with (inr error_report)) world_with_dataset
  = (world_with_dataset, 1%Z).
Proof. vm_compute. reflexivity. Qed.

Example successful_run_exit_code :
  (main update_currency_data_py TARGET_CURRENCIES (env_with (inr api_response))
        world_with_dataset).2 = 0%Z.
Proof. vm_compute. reflexivity. Qed.

(** ** C6: the contract of the fetcher

    C6 as stated fails: a 200 response whose body has no ['rates'] is
    malformed, and the fetcher returns the empty dict for it, not [None]. *)
Lemma fetch_malformed_not_None :
  malformed_response error_report
  /\ fetch_latest_rates_from_api TARGET_CURRENCIES (inr error_report) = Ok (Some ∅)
  /\ fetch_latest_rates_from_api TARGET_CURRENCIES (inr error_report) <> Ok None.
Proof.
  split; [|split].
  - intros v Hv [members [rates [-> Hrates]]].
    injection Hv as <-. simpl in Hrates. discriminate.
  - reflexivity.
  - discriminate.
Qed.

(** C6, amended.  The fetcher never raises.  For a response without an
    error status whose body is an object with an object under ['rates'] it
    returns the rates restricted to the allow-list.  It returns [None] on a
    connection failure or timeout, on an error status, on a body that is not
    JSON or not an object, and on a ['rates'] that is null, a boolean or a
    number.  A body that is an object without ['rates'] gives the empty dict,
    not [None]. *)
Theorem fetch_contract targets network :
  (exists fetched, fetch_latest_rates_from_api targets network = Ok fetched)
  /\ (forall r members rates,
        network = inr r ->
        ~ (400 ≤ status_code r < 600) ->
        body r = Some (JObj members) ->
        obj_lookup "rates" members = Some (JObj rates) ->
        exists m, fetch_latest_rates_from_api targets network = Ok (Some m)
                  /\ restricted_to targets rates m)
  /\ (forall why, network = inl why ->
        fetch_latest_rates_from_api targets network = Ok None)
  /\ (forall r, network = inr r -> 400 ≤ status_code r < 600 ->
        fetch_latest_rates_from_api targets network = Ok None)
  /\ (forall r, network = inr r -> body r = None ->
        fetch_latest_rates_from_api targets network = Ok None)
  /\ (forall r v, network = inr r -> body r = Some v ->
        (forall members, v <> JObj members) ->
        fetch_latest_rates_from_api targets network = Ok None)
  /\ (forall r members rates,
        network = inr r ->
        ~ (400 ≤ status_code r < 600) ->
        body r = Some (JObj members) ->
        obj_lookup "rates" members = Some rates ->
        is_scalar rates = true ->
        targets <> [] ->
        fetch_latest_rates_from_api targets network = Ok None)
  /\ (forall r members,
        network = inr r ->
        ~ (400 ≤ status_code r < 600) ->
        body r = Some (JObj members) ->
        obj_lookup "rates" members = None ->
        fetch_latest_rates_from_api targets network = Ok (Some ∅)).
Proof.
  split; [apply fetch_total|].
  unfold fetch_latest_rates_from_api.
  split; [|split; [|split; [|split; [|split; [|split]]]]].
  - intros r members rates -> Hstatus Hbody Hrates.
    rewrite (fetch_try_response _ _ _ Hstatus Hbody). simpl. rewrite Hrates. simpl.
    destruct (filter_rates_object rates targets ∅) as [m [Hm Hlook]].
    exists m. rewrite Hm. split; [done|].
    intros c. rewrite Hlook, lookup_empty.
    by destruct (if decide (c ∈ targets) then obj_lookup c rates else None).
  - by intros why ->.
  - intros r -> Hstatus. unfold fetch_try, raise_for_status. simpl.
    by rewrite bool_decide_eq_true_2.
  - intros r -> Hbody. unfold fetch_try, raise_for_status, response_json. simpl.
    rewrite Hbody. by destruct (bool_decide (400 ≤ status_code r < 600)).
  - intros r v -> Hbody Hobj. unfold fetch_try, raise_for_status, response_json. simpl.
    rewrite Hbody. destruct (bool_decide (400 ≤ status_code r < 600)); [done|].
    simpl. destruct v; try done. by destruct (Hobj members).
  - intros r members rates -> Hstatus Hbody Hrates Hscalar Htargets.
    rewrite (fetch_try_response _ _ _ Hstatus Hbody). simpl. rewrite Hrates. simpl.
    destruct targets as [|t rest]; [done|].
    destruct rates; try discriminate Hscalar; reflexivity.
  - intros r members -> Hstatus Hbody Hrates.
    rewrite (fetch_try_response _ _ _ Hstatus Hbody). simpl. rewrite Hrates. simpl.
    destruct (filter_rates_object [] targets ∅) as [m [Hm Hlook]].
    rewrite Hm. simpl. do 2 f_equal. apply map_eq. intros c.
    rewrite Hlook, lookup_empty. by destruct (decide (c ∈ targets)).
Qed.

Section string_order.

Lemma str_le_refl a : str_le a a.
Proof.
  unfold str_le, String.leb.
  destruct (String.compare a a) eqn:E; try done.
  pose proof (String.compare_antisym a a) as H. rewrite E in H. discriminate.
Qed.

Lemma compare_Lt_trans a b c :
  String.compare a b = Lt -> String.compare b c = Lt -> String.compare a c = Lt.
Proof. apply (StrictOrder_Transitive (R := String_as_OT.lt)). Qed.

Lemma str_le_trans a b c : str_le a b -> str_le b c -> str_le a c.
Proof.
  unfold str_le, String.leb. intros Hab Hbc.
  destruct (String.compare a b) eqn:Eab; try done.
  - apply String.compare_eq_iff in Eab as ->. exact Hbc.
  - destruct (String.compare b c) eqn:Ebc; try done.
    + apply String.compare_eq_iff in Ebc as <-. by rewrite Eab.
    + by rewrite (compare_Lt_trans a b c).
Qed.

Lemma ltb_true_le a b : String.ltb a b = true -> str_le a b.
Proof. unfold str_le, String.ltb, String.leb. by destruct (String.compare a b). Qed.

Lemma ltb_false_le a b : String.ltb a b = false -> str_le b a.
Proof.
  unfold str_le, String.ltb, String.leb. rewrite (String.compare_antisym b a).
  by destruct (String.compare a b).
Qed.

End string_order.

Lemma max_loop_spec rest best :
  let r := foldl (fun best k' => if String.ltb best k' then k' else best) best rest in
  (r = best \/ r ∈ rest) /\ str_le best r /\ forall k', k' ∈ rest -> str_le k' r.
Proof.
  revert best. induction rest as [|k rest IH]; intros best; simpl.
  - split; [by left|]. split; [apply str_le_refl|]. intros k' Hk'. by apply elem_of_nil in Hk'.
  - destruct (IH (if String.ltb best k then k else best)) as (Hin & Hle & Hall).
    destruct (String.ltb best k) eqn:Hlt.
    + split; [right; destruct Hin as [->|Hin]; [left|by right]|].
      split; [by eapply str_le_trans; [apply ltb_true_le|]|].
      intros k' [->|Hk']%elem_of_cons; [done|by apply Hall].
    + split; [destruct Hin as [->|Hin]; [by left|by right; right]|].
      split; [done|].
      intros k' [->|Hk']%elem_of_cons; [|by apply Hall].
      eapply str_le_trans; [by apply ltb_false_le|done].
Qed.

Lemma py_max_keys {V} (d : gmap string V) :
  d <> ∅ -> exists k, py_max (keys d) = Ok k /\ greatest_key k d.
Proof.
  intros Hne. unfold keys.
  destruct (map_to_list d) as [|[k0 v0] l] eqn:Hl.
  { by apply map_to_list_empty_iff in Hl. }
  simpl. eexists. split; [reflexivity|].
  pose proof (max_loop_spec l.*1 k0) as Hmax. cbv zeta in Hmax.
  destruct Hmax as (Hin & Hle & Hall).
  assert (Hkeys : forall k, is_Some (d !! k) <-> k = k0 \/ k ∈ l.*1).
  { intros k. split.
    - intros [v Hv]. apply elem_of_map_to_list in Hv. rewrite Hl in Hv.
      apply elem_of_cons in Hv as [Heq|Hv]; [left; congruence|].
      right. apply list_elem_of_fmap. by exists (k, v).
    - intros [->|Hk].
      + exists v0. apply elem_of_map_to_list. rewrite Hl. left.
      + apply list_elem_of_fmap in Hk as [[k' v] [-> Hk]]. exists v.
        apply elem_of_map_to_list. rewrite Hl. by right. }
  split.
  - apply Hkeys. destruct Hin as [Hin|Hin]; [left; exact Hin|right; exact Hin].
  - intros k' [->|Hk']%Hkeys; [exact Hle|exact (Hall k' Hk')].
Qed.

Lemma greatest_key_unique {V} (d : gmap string V) k1 k2 :
  greatest_key k1 d -> greatest_key k2 d -> k1 = k2.
Proof.
  intros [H1 G1] [H2 G2]. apply String.leb_antisym; [by apply G2|by apply G1].
Qed.

Section snapshot_facts.

Implicit Types (currencies : list string) (row arr : list json).
Implicit Types (m acc : gmap string json).

Lemma latest_rates_loop_entries currencies arr i acc :
  latest_rates_loop i currencies arr acc
  = Ok (foldl (fun m cv => <[cv.1 := cv.2]> m) acc
              (non_null_entries currencies (drop i arr))).
Proof.
  revert i acc. induction currencies as [|c rest IH]; intros i acc; [done|].
  cbn [latest_rates_loop]. unfold non_null_entries in *.
  destruct (decide (i < length arr)) as [Hlt|Hge].
  - rewrite bool_decide_eq_true_2 by done.
    destruct (lookup_lt_is_Some_2 arr i Hlt) as [v Hv].
    rewrite (drop_S _ _ _ Hv). unfold list_getitem. rewrite Hv.
    cbn [mbind result_bind zip zip_with].
    destruct (is_not_None v) eqn:Hnull.
    + rewrite filter_cons_True by (cbn [snd]; by rewrite Hnull). simpl. apply IH.
    + rewrite filter_cons_False by (cbn [snd]; rewrite Hnull; exact id). apply IH.
  - rewrite bool_decide_eq_false_2 by done. rewrite IH.
    rewrite !drop_ge by lia. by destruct rest.
Qed.

Lemma fst_zip_sublist currencies row : (zip currencies row).*1 `sublist_of` currencies.
Proof.
  revert row. induction currencies as [|c rest IH]; intros [|v row]; simpl;
    try apply sublist_nil_l.
  apply sublist_skip, IH.
Qed.

Lemma NoDup_non_null_entries currencies row :
  NoDup currencies -> NoDup (non_null_entries currencies row).*1.
Proof.
  intros Hnd. eapply sublist_NoDup; [exact Hnd|].
  etrans; [|apply fst_zip_sublist]. apply fmap_sublist, sublist_filter.
Qed.

Lemma elem_of_non_null_entries currencies row c v :
  (c, v) ∈ non_null_entries currencies row
  <-> exists i, currencies !! i = Some c /\ row !! i = Some v /\ v <> JNull.
Proof.
  unfold non_null_entries. rewrite list_elem_of_filter. simpl.
  rewrite elem_of_lookup_zip_with. split.
  - intros [Hv (i & c' & v' & Heq & Hc & Hr)]. injection Heq as -> ->.
    exists i. repeat split; try done. by intros ->.
  - intros (i & Hc & Hr & Hv). split; [by destruct v|]. by exists i, c, v.
Qed.

Lemma foldl_insert_Some (entries : list (string * json)) acc c v :
  foldl (fun m cv => <[cv.1 := cv.2]> m) acc entries !! c = Some v ->
  (c, v) ∈ entries \/ acc !! c = Some v.
Proof.
  revert acc. induction entries as [|[c' v'] rest IH]; intros acc; simpl; [by right|].
  intros [Hin|Hacc]%IH; [left; by right|].
  destruct (decide (c' = c)) as [->|Hne].
  - rewrite lookup_insert_eq in Hacc. injection Hacc as ->. left. left.
  - rewrite lookup_insert_ne in Hacc by done. by right.
Qed.

Lemma foldl_insert_NoDup (entries : list (string * json)) acc c v :
  NoDup entries.*1 -> (c, v) ∈ entries ->
  foldl (fun m cv => <[cv.1 := cv.2]> m) acc entries !! c = Some v.
Proof.
  revert acc. induction entries as [|[c' v'] rest IH]; intros acc Hnd Hin; simpl.
  - by apply elem_of_nil in Hin.
  - rewrite fmap_cons in Hnd. apply NoDup_cons in Hnd as [Hnotin Hnd].
    apply elem_of_cons in Hin as [Heq|Hin]; [|by apply IH].
    injection Heq as -> ->.
    destruct (foldl (fun m cv => <[cv.1 := cv.2]> m) (<[c' := v']> acc) rest !! c')
      as [w|] eqn:Hw.
    + apply foldl_insert_Some in Hw as [Hin|Hacc].
      * destruct Hnotin. apply list_elem_of_fmap. by exists (c', w).
      * by rewrite lookup_insert_eq in Hacc.
    + assert (Hnone : forall (l : list (string * json)) a,
                 c' ∉ l.*1 -> foldl (fun m cv => <[cv.1 := cv.2]> m) a l !! c' = a !! c').
      { clear. induction l as [|[k x] l IHl]; intros a Hk; simpl; [done|].
        rewrite fmap_cons in Hk. apply not_elem_of_cons in Hk as [Hne Hk].
        rewrite IHl by done. by rewrite lookup_insert_ne. }
      rewrite Hnone in Hw by done. by rewrite lookup_insert_eq in Hw.
Qed.

End snapshot_facts.

Lemma non_null_entries_nulls currencies n :
  non_null_entries currencies (replicate n JNull) = [].
Proof.
  revert n. induction currencies as [|c rest IH]; intros [|n]; try done.
  unfold non_null_entries in *. simpl. rewrite filter_cons_False by (simpl; exact id).
  apply IH.
Qed.

Lemma non_null_entries_padded currencies row n :
  non_null_entries currencies (row ++ replicate n JNull) = non_null_entries currencies row.
Proof.
  revert currencies. induction row as [|v row IH]; intros currencies.
  - rewrite app_nil_l, non_null_entries_nulls. by destruct currencies.
  - destruct currencies as [|c rest]; [done|].
    unfold non_null_entries in *. simpl. rewrite !filter_cons, IH. done.
Qed.

Lemma dict_of_lookup_Some currencies row c v :
  dict_of (non_null_entries currencies row) !! c = Some v ->
  exists i, currencies !! i = Some c /\ row !! i = Some v /\ v <> JNull.
Proof.
  intros [Hin|Hempty]%foldl_insert_Some.
  - by apply elem_of_non_null_entries.
  - by rewrite lookup_empty in Hempty.
Qed.

Lemma dict_of_lookup_NoDup currencies row i c v :
  NoDup currencies ->
  currencies !! i = Some c -> row !! i = Some v -> v <> JNull ->
  dict_of (non_null_entries currencies row) !! c = Some v.
Proof.
  intros Hnd Hc Hr Hv. apply foldl_insert_NoDup.
  - by apply NoDup_non_null_entries.
  - apply elem_of_non_null_entries. eauto.
Qed.

Example fetch_timeout :
  fetch_latest_rates_from_api TARGET_CURRENCIES (inl TimedOut) = Ok None.
Proof. reflexivity. Qed.

Example fetch_restricts_to_targets :
  fetch_latest_rates_from_api TARGET_CURRENCIES (inr api_response)
  = Ok (Some {[ "USD" := JFloat 1.08; "GBP" := JFloat 0.86 ]}).
Proof. vm_compute. reflexivity. Qed.

Example fetch_rates_is_a_list :
  fetch_latest_rates_from_api TARGET_CURRENCIES
    (inr {| status_code := 200; body := Some (JObj [("rates", JArr [JStr "USD"])]) |})
  = Ok None.
Proof. reflexivity. Qed.

(** ** C10: a row shorter than the currency list

    C10.  For any row and currency list the loop ends without an exception;
    its result is the one for the row padded with nulls to the length of the
    currency list; every rate of the result comes from a position inside the
    row, and a currency whose positions are all beyond the end of the row is
    not in the result. *)
Theorem short_row_is_safe currencies arr :
  exists latest_rates,
    latest_rates_loop 0 currencies arr ∅ = Ok latest_rates
    /\ latest_rates_loop 0 currencies
         (arr ++ replicate (length currencies - length arr) JNull) ∅ = Ok latest_rates
    /\ (forall c v,
          latest_rates !! c = Some v ->
          exists i, i < length arr /\ currencies !! i = Some c
                    /\ arr !! i = Some v /\ v <> JNull)
    /\ (forall c,
          (forall i, currencies !! i = Some c -> length arr <= i) ->
          latest_rates !! c = None).
Proof.
  exists (dict_of (non_null_entries currencies arr)).
  assert (Hsome : forall c v,
             dict_of (non_null_entries currencies arr) !! c = Some v ->
             exists i, i < length arr /\ currencies !! i = Some c
                       /\ arr !! i = Some v /\ v <> JNull).
  { intros c v (i & Hc & Hr & Hv)%dict_of_lookup_Some.
    exists i. split; [|done]. by eapply lookup_lt_Some. }
  split; [|split; [|split; [exact Hsome|]]].
  - by rewrite latest_rates_loop_entries, drop_0.
  - by rewrite latest_rates_loop_entries, drop_0, non_null_entries_padded.
  - intros c Hbeyond.
    destruct (dict_of (non_null_entries currencies arr) !! c) as [v|] eqn:Hv; [|done].
    apply Hsome in Hv as (i & Hlt & Hc & _). apply Hbeyond in Hc. lia.
Qed.

Example unguarded_index_raises : list_getitem [JFloat 1.08] 1 = Raise IndexError.
Proof. reflexivity. Qed.

Example short_row_snapshot :
  latest_rates_loop 0 ["USD"; "GBP"; "JPY"] [JFloat 1.08] ∅
  = Ok {[ "USD" := JFloat 1.08 ]}.
Proof. reflexivity. Qed.

Example py_max_is_lexical : py_max ["2023"; "2024"; "999"] = Ok "999".
Proof. reflexivity. Qed.

(** ** C7: the latest snapshot

    C7.  On a dataset that is not empty the derivation succeeds: it takes
    the greatest year, the greatest day of that year, and returns under that
    day the non-null entries of its row zipped to the currency names, as a
    dict: every rate of the snapshot is the non-null entry of the row at a
    position of its currency, with distinct currency names every such entry
    is in the snapshot, and a currency with null or missing entries only is
    absent. *)
Theorem latest_snapshot_correct stamp data :
  non_empty data ->
  exists year year_data key row snapshot,
    greatest_key year (rates_by_year data)
    /\ rates_by_year data !! year = Some year_data
    /\ greatest_key key year_data
    /\ year_data !! key = Some row
    /\ derive_latest_snapshot stamp data = Ok snapshot
    /\ date snapshot = key
    /\ rates snapshot = dict_of (non_null_entries (currencies (metadata data)) row)
    /\ (forall c v,
          rates snapshot !! c = Some v ->
          exists i, currencies (metadata data) !! i = Some c
                    /\ row !! i = Some v /\ v <> JNull)
    /\ (NoDup (currencies (metadata data)) ->
        forall i c v,
          currencies (metadata data) !! i = Some c ->
          row !! i = Some v -> v <> JNull ->
          rates snapshot !! c = Some v)
    /\ (forall c,
          (forall i, currencies (metadata data) !! i = Some c ->
                     row !! i = Some JNull \/ row !! i = None) ->
          rates snapshot !! c = None).
Proof.
  intros [Hyears Hdays].
  destruct (py_max_keys (rates_by_year data) Hyears) as [year [Hmaxy Hgy]].
  destruct Hgy as [[year_data Hyd] Hgy].
  destruct (py_max_keys year_data (Hdays _ _ Hyd)) as [key [Hmaxk Hgk]].
  destruct Hgk as [[row Hrow] Hgk].
  exists year, year_data, key, row.
  eexists. split; [by split; eauto|]. split; [done|]. split; [by split; eauto|].
  split; [done|]. split.
  { unfold derive_latest_snapshot, dict_getitem.
    rewrite Hmaxy. cbn [mbind result_bind]. rewrite Hyd. cbn [mbind result_bind].
    rewrite Hmaxk. cbn [mbind result_bind]. rewrite Hrow. cbn [mbind result_bind].
    rewrite latest_rates_loop_entries, drop_0. reflexivity. }
  simpl. split; [done|]. split; [done|]. split; [|split].
  - intros c v. apply dict_of_lookup_Some.
  - intros Hnd i c v. by apply dict_of_lookup_NoDup.
  - intros c Hnull.
    destruct (dict_of (non_null_entries (currencies (metadata data)) row) !! c)
      as [v|] eqn:Hv; [|done].
    apply dict_of_lookup_Some in Hv as (i & Hc & Hr & Hv).
    destruct (Hnull i Hc) as [H|H]; congruence.
Qed.

Lemma sample_dataset_non_empty : non_empty sample_dataset.
Proof.
  split.
  - apply insert_non_empty.
  - intros year year_data Hy. simpl in Hy.
    apply lookup_insert_Some in Hy as [[_ <-]|[_ Hy]].
    + apply map_non_empty_singleton.
    + apply lookup_singleton_Some in Hy as [_ <-]. apply insert_non_empty.
Qed.

Example sample_snapshot :
  derive_latest_snapshot "2024-03-16T06:00:00" sample_dataset
  = Ok {| date := "2024-03-15";
          latest_base_currency := "EUR";
          rates := {[ "USD" := JFloat 1.08; "GBP" := JFloat 0.86 ]};
          latest_last_updated := "2024-03-16T06:00:00" |}.
Proof. vm_compute. reflexivity. Qed.

Lemma latest_snapshot_correct_witness :
  non_empty sample_dataset
  /\ exists year year_data key row snapshot,
       greatest_key year (rates_by_year sample_dataset)
       /\ rates_by_year sample_dataset !! year = Some year_data
       /\ greatest_key key year_data
       /\ year_data !! key = Some row
       /\ derive_latest_snapshot "2024-03-16T06:00:00" sample_dataset = Ok snapshot
       /\ date snapshot = key
       /\ rates snapshot = dict_of (non_null_entries (currencies (metadata sample_dataset)) row)
       /\ (forall c v,
             rates snapshot !! c = Some v ->
             exists i, currencies (metadata sample_dataset) !! i = Some c
                       /\ row !! i = Some v /\ v <> JNull)
       /\ (NoDup (currencies (metadata sample_dataset)) ->
           forall i c v,
             currencies (metadata sample_dataset) !! i = Some c ->
             row !! i = Some v -> v <> JNull ->
             rates snapshot !! c = Some v)
       /\ (forall c,
             (forall i, currencies (metadata sample_dataset) !! i = Some c ->
                        row !! i = Some JNull \/ row !! i = None) ->
             rates snapshot !! c = None).
Proof.
  split.
  - exact sample_dataset_non_empty.
  - exact (latest_snapshot_correct "2024-03-16T06:00:00" sample_dataset
             sample_dataset_non_empty).
Defined.

Lemma merge_non_empty s targets today current_year stamp latest_rates data :
  (forall year year_data, rates_by_year data !! year = Some year_data -> year_data <> ∅) ->
  non_empty (merge s targets today current_year stamp latest_rates data).
Proof.
  intros Hdays. unfold non_empty. rewrite merge_years. split.
  - apply insert_non_empty.
  - intros year year_data [[_ <-]|[_ Hy]]%lookup_insert_Some.
    + apply insert_non_empty.
    + by eapply Hdays.
Qed.

(** ** C8: consistency of the metadata document

    C8 as stated fails: when the currency list of the data has the base
    currency, the supported currencies have it twice. *)
Lemma base_currency_duplicated :
  let doc := derive_metadata "2024-03-16T06:00:00" dataset_listing_base "2024-03-15" 100 50 in
  supported_currencies doc = ["EUR"; "EUR"; "USD"]
  /\ length (supported_currencies doc)
     = length (currencies (metadata dataset_listing_base)) + 1
  /\ count_occ string_dec (supported_currencies doc) (doc_base_currency doc) = 2
  /\ ~ NoDup (supported_currencies doc).
Proof.
  repeat split. intros Hnd. simpl in Hnd. apply NoDup_cons in Hnd as [Hnotin _].
  apply Hnotin. left.
Qed.

Lemma bootstrap_run_documents env w w' :
  bootstrap_currency_pages env w = (w', Ok tt) ->
  exists data latest full_size latest_size,
    files w !! source_file = Some (CurrencyRates data)
    /\ derive_latest_snapshot (latest_stamp (clock env)) data = Ok latest
    /\ files w' !! (docs_dir ++ "/currency_rates.json") = Some (CurrencyRates data)
    /\ files w' !! (docs_dir ++ "/latest.json") = Some (Latest latest)
    /\ files w' !! (docs_dir ++ "/metadata.json")
       = Some (MetadataJson (derive_metadata (metadata_stamp (clock env)) data
                               (date latest) full_size latest_size)).
Proof.
  unfold bootstrap_currency_pages. simpl.
  destruct (files w !! source_file) as [source|] eqn:Hsrc; [|discriminate].
  destruct source as [data| |]; try discriminate.
  destruct (derive_latest_snapshot (latest_stamp (clock env)) data) as [latest|] eqn:Hl;
    [|discriminate].
  unfold getsize. simpl.
  rewrite (lookup_insert_ne _ (docs_dir ++ "/latest.json") (docs_dir ++ "/currency_rates.json"))
    by done.
  rewrite !lookup_insert_eq.
  intros Heq. injection Heq as <-. simpl.
  exists data, latest. eexists _, _. split; [done|]. split; [done|].
  rewrite lookup_insert_ne by done. rewrite lookup_insert_ne by done.
  rewrite lookup_insert_eq. split; [done|].
  rewrite lookup_insert_ne by done. rewrite lookup_insert_eq. split; [done|].
  rewrite lookup_insert_eq. done.
Qed.

Lemma count_occ_cons_base (base : string) (l : list string) :
  count_occ string_dec (base :: l) base = S (count_occ string_dec l base).
Proof. apply count_occ_cons_eq. reflexivity. Qed.

(** C8, amended.  The document of [metadata.json] copies [total_records]
    from the data it is generated from, in the bootstrap script and in the
    update scripts, where it is the counter of the dataset written by the
    same run.  Its supported currencies are the base currency followed by
    the whole currency list, one more than the list; nothing is removed, so
    the base currency occurs once more than in the list: once with
    [TARGET_CURRENCIES], twice when the list has it. *)
Theorem metadata_consistency :
  (forall stamp data latest_date full_size latest_size,
      let doc := derive_metadata stamp data latest_date full_size latest_size in
      doc_total_records doc = total_records (metadata data)
      /\ supported_currencies doc = doc_base_currency doc :: currencies (metadata data)
      /\ length (supported_currencies doc) = length (currencies (metadata data)) + 1
      /\ total_currencies doc = Z.of_nat (length (supported_currencies doc))
      /\ count_occ string_dec (supported_currencies doc) (doc_base_currency doc)
         = S (count_occ string_dec (currencies (metadata data)) (doc_base_currency doc)))
  /\ (forall s targets clk data full_size latest_size,
        let doc := metadata_json s targets clk data full_size latest_size in
        doc_total_records doc = total_records (metadata data)
        /\ supported_currencies doc = doc_base_currency doc :: targets
        /\ length (supported_currencies doc) = length targets + 1
        /\ total_currencies doc = Z.of_nat (length (supported_currencies doc))
        /\ count_occ string_dec (supported_currencies doc) (doc_base_currency doc)
           = S (count_occ string_dec targets (doc_base_currency doc)))
  /\ (forall s clk data full_size latest_size,
        count_occ string_dec
          (supported_currencies
             (metadata_json s TARGET_CURRENCIES clk data full_size latest_size)) "EUR" = 1)
  /\ (forall s targets env w latest_rates data,
        fetch_latest_rates_from_api targets (network env) = Ok (Some latest_rates) ->
        latest_rates <> ∅ ->
        load_existing_data s targets (clock env) (ensure_docs_directory s w)
        = CurrencyRates data ->
        exists written doc,
          files (main s targets env w).1 !! currency_file s = Some (CurrencyRates written)
          /\ files (main s targets env w).1 !! metadata_file s = Some (MetadataJson doc)
          /\ doc_total_records doc = total_records (metadata written))
  /\ (forall env w w',
        bootstrap_currency_pages env w = (w', Ok tt) ->
        exists data doc,
          files w !! source_file = Some (CurrencyRates data)
          /\ files w' !! (docs_dir ++ "/metadata.json") = Some (MetadataJson doc)
          /\ doc_total_records doc = total_records (metadata data)
          /\ supported_currencies doc = "EUR" :: currencies (metadata data)).
Proof.
  split; [|split; [|split; [|split]]].
  - intros stamp data latest_date full_size latest_size doc. unfold doc. simpl.
    repeat split; first [lia | apply count_occ_cons_base].
  - intros s targets clk data full_size latest_size doc. unfold doc. simpl.
    repeat split; first [lia | apply count_occ_cons_base].
  - intros s clk data full_size latest_size. reflexivity.
  - intros s targets env w latest_rates data Hfetch Hne Hload.
    destruct (update_run_success s targets env w latest_rates data Hfetch Hne Hload)
      as (w' & fs & ls & Hmain & Hc & _ & Hm).
    rewrite Hmain. simpl. eexists _, _. split; [exact Hc|]. split; [exact Hm|]. reflexivity.
  - intros env w w' Hrun.
    destruct (bootstrap_run_documents env w w' Hrun)
      as (data & latest & fs & ls & Hsrc & _ & _ & _ & Hm).
    exists data. eexists. split; [exact Hsrc|]. split; [exact Hm|]. split; reflexivity.
Qed.

(** * Further properties of the scripts *)

Lemma year_data_of_insert_eq year (b : gmap string (list json)) years :
  year_data_of (<[year := b]> years) year = b.
Proof. unfold year_data_of. by rewrite lookup_insert_eq. Qed.

Lemma year_data_of_insert_ne year year' (b : gmap string (list json)) years :
  year <> year' -> year_data_of (<[year := b]> years) year' = year_data_of years year'.
Proof. intros Hne. unfold year_data_of. by rewrite lookup_insert_ne. Qed.

(** X1.  A second merge for the same day replaces the first: merging other
    rates into the slot of a day already merged gives the dataset that the
    second merge alone gives. *)
Theorem merge_last_write_wins s targets today current_year stamp1 stamp2
    latest_rates1 latest_rates2 data :
  merge s targets today current_year stamp2 latest_rates2
    (merge s targets today current_year stamp1 latest_rates1 data)
  = merge s targets today current_year stamp2 latest_rates2 data.
Proof.
  assert (Hy : rates_by_year
                 (merge s targets today current_year stamp2 latest_rates2
                    (merge s targets today current_year stamp1 latest_rates1 data))
               = rates_by_year (merge s targets today current_year stamp2 latest_rates2 data)).
  { rewrite (merge_years _ _ _ _ stamp2). rewrite !merge_years.
    by rewrite year_data_of_insert_eq, !insert_insert_eq. }
  rewrite (merge_eq _ _ _ _ stamp2 latest_rates2 (merge _ _ _ _ _ _ _)).
  rewrite Hy. rewrite (merge_eq _ _ _ _ stamp2 latest_rates2 data) at 3.
  destruct s; reflexivity.
Qed.

Lemma merge_commute_years s targets today1 year1 stamp1 rates1 today2 year2 stamp2 rates2 data :
  (year1, day_key s today1) <> (year2, day_key s today2) ->
  rates_by_year (merge s targets today2 year2 stamp2 rates2
                   (merge s targets today1 year1 stamp1 rates1 data))
  = rates_by_year (merge s targets today1 year1 stamp1 rates1
                     (merge s targets today2 year2 stamp2 rates2 data)).
Proof.
  intros Hne. rewrite (merge_years _ _ today2), (merge_years _ _ today1 year1 stamp1 rates1 (merge _ _ _ _ _ _ _)).
  rewrite !merge_years.
  destruct (decide (year1 = year2)) as [<-|Hy].
  - rewrite !year_data_of_insert_eq, !insert_insert_eq. f_equal.
    apply insert_insert_ne. congruence.
  - rewrite !year_data_of_insert_ne by done. by apply insert_insert_ne.
Qed.

(** X2.  Merges of two different slots commute on the history: in either
    order the years and [total_records] are the same, and both rows are
    stored. *)
Theorem merge_of_other_days_commutes s targets today1 year1 stamp1 rates1
    today2 year2 stamp2 rates2 data :
  (year1, day_key s today1) <> (year2, day_key s today2) ->
  let first_then_second :=
    merge s targets today2 year2 stamp2 rates2
      (merge s targets today1 year1 stamp1 rates1 data) in
  let second_then_first :=
    merge s targets today1 year1 stamp1 rates1
      (merge s targets today2 year2 stamp2 rates2 data) in
  rates_by_year first_then_second = rates_by_year second_then_first
  /\ total_records (metadata first_then_second) = total_records (metadata second_then_first)
  /\ lookup_row (rates_by_year first_then_second) year1 (day_key s today1)
     = Some (rates_array s targets rates1)
  /\ lookup_row (rates_by_year first_then_second) year2 (day_key s today2)
     = Some (rates_array s targets rates2).
Proof.
  intros Hne a b. unfold a, b.
  pose proof (merge_commute_years s targets today1 year1 stamp1 rates1
                today2 year2 stamp2 rates2 data Hne) as Hy.
  split; [exact Hy|]. split; [by rewrite !merge_total_records, Hy|].
  split.
  - rewrite Hy, merge_years, lookup_row_year_data. unfold year_data_of at 1.
    rewrite lookup_insert_eq. simpl. apply lookup_insert_eq.
  - rewrite merge_years, lookup_row_year_data. unfold year_data_of at 1.
    rewrite lookup_insert_eq. simpl. apply lookup_insert_eq.
Qed.

(** X3.  A merge removes nothing: every year and every slot of the data is
    still there, the count of records grows by at most one, and
    [total_records] is the old count exactly when the slot was there. *)
Theorem merge_keeps_every_day s targets today current_year stamp latest_rates data :
  let merged := merge s targets today current_year stamp latest_rates data in
  (forall year, is_Some (rates_by_year data !! year) ->
                is_Some (rates_by_year merged !! year))
  /\ (forall year key,
        is_Some (lookup_row (rates_by_year data) year key) ->
        is_Some (lookup_row (rates_by_year merged) year key))
  /\ (count_records (rates_by_year data) <= count_records (rates_by_year merged)
      <= count_records (rates_by_year data) + 1)%Z
  /\ (total_records (metadata merged) = count_records (rates_by_year data)
      <-> is_Some (lookup_row (rates_by_year data) current_year (day_key s today))).
Proof.
  intros merged. unfold merged. split; [|split; [|split]].
  - intros year Hy. rewrite merge_years.
    destruct (decide (current_year = year)) as [<-|Hne].
    + rewrite lookup_insert_eq. eauto.
    + by rewrite lookup_insert_ne.
  - intros year key Hrow. rewrite merge_years, lookup_row_year_data.
    rewrite lookup_row_year_data in Hrow.
    destruct (decide (current_year = year)) as [<-|Hne].
    + rewrite year_data_of_insert_eq.
      destruct (decide (day_key s today = key)) as [<-|Hk].
      * rewrite lookup_insert_eq. eauto.
      * by rewrite lookup_insert_ne.
    + by rewrite year_data_of_insert_ne.
  - rewrite count_records_merge.
    destruct (lookup_row (rates_by_year data) current_year (day_key s today)); lia.
  - rewrite merge_total_records, count_records_merge.
    destruct (lookup_row (rates_by_year data) current_year (day_key s today)) eqn:E.
    + split; [eauto|lia].
    + split; [lia|]. intros [? ?]. discriminate.
Qed.

Lemma new_structure_years s targets clk : rates_by_year (new_structure s targets clk) = ∅.
Proof. destruct s; reflexivity. Qed.

(** X4.  Every dataset an update script can hold keeps the layout: each row
    has the length of the allow-list, no year is without a day,
    [total_records] is the count of records, the currency list is the
    allow-list and the base currency is EUR. *)
Theorem reachable_invariant s targets data :
  reachable s targets data ->
  (forall year key row,
      lookup_row (rates_by_year data) year key = Some row ->
      length row = length targets)
  /\ (forall year year_data,
        rates_by_year data !! year = Some year_data -> year_data <> ∅)
  /\ total_records (metadata data) = count_records (rates_by_year data)
  /\ currencies (metadata data) = targets
  /\ base_currency (metadata data) = "EUR".
Proof.
  induction 1 as [clk|today current_year stamp latest_rates data Hne Hreach IH].
  - rewrite new_structure_years, count_records_empty.
    split; [|split; [|split; [|split]]]; try (destruct s; reflexivity).
    + intros year key row Hrow. unfold lookup_row in Hrow.
      rewrite lookup_empty in Hrow. discriminate.
    + intros year year_data Hy. rewrite lookup_empty in Hy. discriminate.
  - destruct IH as (Hlen & Hdays & _ & Hcur & Hbase).
    split; [|split; [|split; [|split]]].
    + intros year key row. rewrite merge_years, lookup_row_year_data.
      destruct (decide (current_year = year)) as [<-|Hy].
      * rewrite year_data_of_insert_eq.
        destruct (decide (day_key s today = key)) as [<-|Hk].
        -- rewrite lookup_insert_eq. intros [= <-].
           rewrite rates_array_fmap. apply length_fmap.
        -- rewrite lookup_insert_ne by done. rewrite <- lookup_row_year_data. apply Hlen.
      * rewrite year_data_of_insert_ne by done. rewrite <- lookup_row_year_data. apply Hlen.
    + apply merge_non_empty, Hdays.
    + apply merge_total_records.
    + rewrite merge_eq. destruct s; exact Hcur.
    + rewrite merge_eq. destruct s; exact Hbase.
Qed.

Lemma reachable_invariant_witness :
  let data := merge update_and_deploy_py scenario_targets "2024-03-15" "2024"
                    "2024-03-15T06:00:01" scenario_rates
                    (new_structure update_and_deploy_py scenario_targets sample_clock) in
  reachable update_and_deploy_py scenario_targets data
  /\ (forall year key row,
        lookup_row (rates_by_year data) year key = Some row ->
        length row = length scenario_targets)
  /\ currencies (metadata data) = scenario_targets.
Proof.
  intros data.
  assert (Hreach : reachable update_and_deploy_py scenario_targets data).
  { apply reachable_merge; [done|apply reachable_new]. }
  split; [exact Hreach|].
  destruct (reachable_invariant update_and_deploy_py scenario_targets data Hreach)
    as (Hlen & _ & _ & Hcur & _).
  split; [exact Hlen|exact Hcur].
Defined.

Lemma merge_of_other_days_commutes_witness :
  let s := update_currency_data_py in
  let data := new_structure s scenario_targets sample_clock in
  rates_by_year
    (merge s scenario_targets "2024-03-16" "2024" "t2" ∅
       (merge s scenario_targets "2024-03-15" "2024" "t1" scenario_rates data))
  = rates_by_year
      (merge s scenario_targets "2024-03-15" "2024" "t1" scenario_rates
         (merge s scenario_targets "2024-03-16" "2024" "t2" ∅ data)).
Proof.
  intros s data.
  apply (merge_of_other_days_commutes s scenario_targets "2024-03-15" "2024" "t1"
           scenario_rates "2024-03-16" "2024" "t2" ∅ data).
  vm_compute. intros H. discriminate H.
Defined.

Lemma decode_row_lookup s targets (latest_rates : gmap string json) c :
  NoDup targets ->
  dict_of (non_null_entries targets (rates_array s targets latest_rates)) !! c
  = match latest_rates !! c with
    | Some v => if decide (c ∈ targets) then (if is_not_None v then Some v else None) else None
    | None => None
    end.
Proof.
  intros Hnd. rewrite rates_array_fmap.
  set (row := dict_get_or_None latest_rates <$> targets).
  assert (Hrow : forall i c', targets !! i = Some c' ->
                              row !! i = Some (dict_get_or_None latest_rates c')).
  { intros i c' Hi. unfold row. by rewrite list_lookup_fmap, Hi. }
  destruct (dict_of (non_null_entries targets row) !! c) as [w|] eqn:Hw.
  - apply dict_of_lookup_Some in Hw as (i & Hc & Hr & Hnull).
    rewrite (Hrow i c Hc) in Hr. injection Hr as <-.
    unfold dict_get_or_None in *.
    destruct (latest_rates !! c) as [v|]; simpl in *; [|done].
    rewrite decide_True by (by eapply list_elem_of_lookup_2).
    by destruct v.
  - destruct (latest_rates !! c) as [v|] eqn:Hv; [|done].
    destruct (decide (c ∈ targets)) as [Hin|]; [|done].
    destruct (is_not_None v) eqn:Hnull; [|done].
    apply list_elem_of_lookup_1 in Hin as [i Hi].
    rewrite (dict_of_lookup_NoDup targets row i c v) in Hw; try done.
    + rewrite (Hrow i c Hi). unfold dict_get_or_None. by rewrite Hv.
    + by intros ->.
Qed.

(** X5.  The loop of the bootstrap script decodes the row the update scripts
    encode: for an allow-list without repetition and fetched rates in the
    allow-list and not null, it gives the fetched rates back. *)
Theorem row_round_trip s targets (latest_rates : gmap string json) :
  NoDup targets ->
  (forall c v, latest_rates !! c = Some v -> c ∈ targets /\ v <> JNull) ->
  latest_rates_loop 0 targets (rates_array s targets latest_rates) ∅ = Ok latest_rates.
Proof.
  intros Hnd Hrates. rewrite latest_rates_loop_entries, drop_0. f_equal.
  apply map_eq. intros c. fold (dict_of (non_null_entries targets (rates_array s targets latest_rates))).
  rewrite decode_row_lookup by done.
  destruct (latest_rates !! c) as [v|] eqn:Hv; [|done].
  destruct (Hrates c v Hv) as [Hin Hnull].
  rewrite decide_True by done. by destruct v.
Qed.

Lemma scenario_targets_NoDup : NoDup scenario_targets.
Proof. apply (bool_decide_unpack _). vm_compute. exact I. Qed.

Lemma scenario_rates_in_targets c v :
  scenario_rates !! c = Some v -> c ∈ scenario_targets /\ v <> JNull.
Proof.
  unfold scenario_rates, scenario_targets.
  intros [[<- <-]|[_ H]]%lookup_insert_Some.
  - split; [set_solver|done].
  - apply lookup_singleton_Some in H as [<- <-]. split; [set_solver|done].
Qed.

Lemma row_round_trip_witness :
  latest_rates_loop 0 scenario_targets
    (rates_array update_currency_data_py scenario_targets scenario_rates) ∅
  = Ok scenario_rates.
Proof.
  apply (row_round_trip update_currency_data_py scenario_targets scenario_rates).
  - exact scenario_targets_NoDup.
  - exact scenario_rates_in_targets.
Defined.

Lemma py_max_greatest {V} (d : gmap string V) k :
  greatest_key k d -> py_max (keys d) = Ok k.
Proof.
  intros Hk. assert (Hne : d <> ∅).
  { intros ->. destruct Hk as [[v Hv] _]. by rewrite lookup_empty in Hv. }
  destruct (py_max_keys d Hne) as [k' [Hmax Hk']].
  by rewrite Hmax, (greatest_key_unique d k k').
Qed.

(** X6.  After update_and_deploy.py has merged a day that is the latest of the
    data, the snapshot the bootstrap script derives is that day with the
    fetched rates, the content of the [latest.json] the update wrote but for
    the stamp. *)
Theorem bootstrap_reads_back_the_merged_day targets today current_year stamp stamp'
    (latest_rates : gmap string json) data :
  NoDup targets ->
  currencies (metadata data) = targets ->
  (forall c v, latest_rates !! c = Some v -> c ∈ targets /\ v <> JNull) ->
  (forall year, is_Some (rates_by_year data !! year) -> str_le year current_year) ->
  (forall key, is_Some (lookup_row (rates_by_year data) current_year key) ->
               str_le key today) ->
  derive_latest_snapshot stamp'
    (merge update_and_deploy_py targets today current_year stamp latest_rates data)
  = Ok {| date := today;
          latest_base_currency := "EUR";
          rates := latest_rates;
          latest_last_updated := stamp' |}.
Proof.
  intros Hnd Hcur Hrates Hyears Hdays.
  set (row := rates_array update_and_deploy_py targets latest_rates).
  set (year_data := <[today := row]> (year_data_of (rates_by_year data) current_year)).
  assert (Hmerged : rates_by_year
                      (merge update_and_deploy_py targets today current_year stamp
                             latest_rates data)
                    = <[current_year := year_data]> (rates_by_year data)).
  { apply merge_years. }
  assert (Hgy : greatest_key current_year (<[current_year := year_data]> (rates_by_year data))).
  { split; [rewrite lookup_insert_eq; eauto|].
    intros year. destruct (decide (current_year = year)) as [<-|Hne].
    - intros _. apply str_le_refl.
    - rewrite lookup_insert_ne by done. apply Hyears. }
  assert (Hgk : greatest_key today year_data).
  { split; [unfold year_data; rewrite lookup_insert_eq; eauto|].
    intros key. unfold year_data. destruct (decide (today = key)) as [<-|Hne].
    - intros _. apply str_le_refl.
    - rewrite lookup_insert_ne by done. rewrite <- lookup_row_year_data. apply Hdays. }
  unfold derive_latest_snapshot, dict_getitem. rewrite Hmerged.
  rewrite (py_max_greatest _ _ Hgy). cbn [mbind result_bind].
  rewrite lookup_insert_eq. cbn [mbind result_bind].
  rewrite (py_max_greatest _ _ Hgk). cbn [mbind result_bind].
  unfold year_data at 1. rewrite lookup_insert_eq. cbn [mbind result_bind].
  assert (Hc : currencies
                 (metadata (merge update_and_deploy_py targets today current_year stamp
                                  latest_rates data)) = targets) by exact Hcur.
  rewrite Hc, latest_rates_loop_entries, drop_0. cbn [mbind result_bind].
  do 2 f_equal. apply map_eq. intros c.
  fold (dict_of (non_null_entries targets row)). unfold row.
  rewrite decode_row_lookup by done.
  destruct (latest_rates !! c) as [v|] eqn:Hv; [|done].
  destruct (Hrates c v Hv) as [Hin Hnull].
  rewrite decide_True by done. by destruct v.
Qed.

Lemma bootstrap_reads_back_the_merged_day_witness :
  derive_latest_snapshot "t2"
    (merge update_and_deploy_py scenario_targets "2024-03-16" "2024" "t1" scenario_rates
       sample_dataset)
  = Ok {| date := "2024-03-16";
          latest_base_currency := "EUR";
          rates := scenario_rates;
          latest_last_updated := "t2" |}.
Proof.
  apply (bootstrap_reads_back_the_merged_day scenario_targets "2024-03-16" "2024" "t1" "t2"
           scenario_rates sample_dataset).
  - exact scenario_targets_NoDup.
  - reflexivity.
  - exact scenario_rates_in_targets.
  - intros year [yd Hy]. simpl in Hy.
    apply lookup_insert_Some in Hy as [[<- _]|[_ Hy]]; [reflexivity|].
    apply lookup_singleton_Some in Hy as [<- _]. reflexivity.
  - intros key [row Hrow]. rewrite lookup_row_year_data in Hrow.
    change (year_data_of (rates_by_year sample_dataset) "2024")
      with ({[ "2024-03-14" := [JFloat 1.09; JFloat 0.85; JFloat 161.2];
               "2024-03-15" := [JFloat 1.08; JFloat 0.86; JNull] ]}
            : gmap string (list json)) in Hrow.
    apply lookup_insert_Some in Hrow as [[<- _]|[_ Hrow]]; [reflexivity|].
    apply lookup_singleton_Some in Hrow as [<- _]. reflexivity.
Defined.

Lemma filter_rates_origin targets rates acc m :
  filter_rates targets rates acc = Ok m ->
  forall c v, m !! c = Some v ->
              acc !! c = Some v \/ (c ∈ targets /\ py_getitem rates c = Ok v).
Proof.
  revert acc. induction targets as [|t rest IH]; intros acc Hm c v Hc.
  - injection Hm as <-. by left.
  - cbn [filter_rates mbind result_bind] in Hm.
    destruct (py_contains rates t) as [[|]|e]; cbn [mbind result_bind] in Hm; try discriminate.
    + destruct (py_getitem rates t) as [x|e] eqn:Hget; cbn [mbind result_bind] in Hm;
        [|discriminate].
      destruct (IH _ Hm c v Hc) as [Hacc|[Hin Hg]].
      * destruct (decide (t = c)) as [<-|Hne].
        -- rewrite lookup_insert_eq in Hacc. injection Hacc as <-.
           right. split; [left|done].
        -- rewrite lookup_insert_ne in Hacc by done. by left.
      * right. split; [by right|done].
    + destruct (IH _ Hm c v Hc) as [Hacc|[Hin Hg]]; [by left|].
      right. split; [by right|done].
Qed.

(** X7.  Whatever the response, a mapping the fetcher returns has only codes
    of the allow-list, each with the value the ['rates'] object of a response
    without error status has under that code. *)
Theorem fetched_rates_come_from_the_response targets network m :
  fetch_latest_rates_from_api targets network = Ok (Some m) ->
  exists r members,
    network = inr r
    /\ ~ (400 ≤ status_code r < 600)
    /\ body r = Some (JObj members)
    /\ forall c v,
         m !! c = Some v ->
         c ∈ targets
         /\ exists rates, obj_lookup "rates" members = Some (JObj rates)
                          /\ obj_lookup c rates = Some v.
Proof.
  unfold fetch_latest_rates_from_api, try_except_Exception.
  destruct (fetch_try targets network) as [fetched|e] eqn:Htry;
    [|by destruct (is_Exception e)].
  intros [= ->]. unfold fetch_try in Htry.
  destruct network as [why|r]; [discriminate|]. cbn [requests_get mbind result_bind] in Htry.
  unfold raise_for_status in Htry.
  destruct (decide (400 ≤ status_code r < 600)) as [Hs|Hs].
  { rewrite bool_decide_eq_true_2 in Htry by done. discriminate. }
  rewrite bool_decide_eq_false_2 in Htry by done. cbn [mbind result_bind] in Htry.
  unfold response_json in Htry.
  destruct (body r) as [v|] eqn:Hbody; [|discriminate]. cbn [mbind result_bind] in Htry.
  destruct v as [| | | | | |members]; try discriminate.
  cbn [py_get mbind result_bind] in Htry.
  destruct (filter_rates targets (default (JObj []) (obj_lookup "rates" members)) ∅)
    as [m'|] eqn:Hf; [|discriminate].
  injection Htry as ->.
  exists r, members. split; [done|]. split; [done|]. split; [done|].
  intros c v Hc.
  destruct (filter_rates_origin _ _ _ _ Hf c v Hc) as [Hempty|[Hin Hget]].
  { by rewrite lookup_empty in Hempty. }
  split; [done|].
  destruct (obj_lookup "rates" members) as [rates|]; simpl in Hget.
  - destruct rates as [| | | | | |rs]; try discriminate.
    exists rs. split; [done|]. simpl in Hget.
    by destruct (obj_lookup c rs); [injection Hget as ->|].
  - discriminate.
Qed.

Lemma fetched_rates_come_from_the_response_witness :
  exists r members,
    (inr api_response : net_error + response) = inr r
    /\ ~ (400 ≤ status_code r < 600)
    /\ body r = Some (JObj members)
    /\ forall c v,
         ({[ "USD" := JFloat 1.08; "GBP" := JFloat 0.86 ]} : gmap string json) !! c = Some v ->
         c ∈ TARGET_CURRENCIES
         /\ exists rates, obj_lookup "rates" members = Some (JObj rates)
                          /\ obj_lookup c rates = Some v.
Proof.
  apply (fetched_rates_come_from_the_response TARGET_CURRENCIES (inr api_response)).
  vm_compute. reflexivity.
Defined.

(** X8.  [max] over the keys does not depend on the order in which the dict
    yields them. *)
Theorem py_max_ignores_the_order (ks ks' : list string) :
  ks ≡ₚ ks' -> py_max ks = py_max ks'.
Proof.
  intros Hperm.
  destruct ks as [|k rest]; destruct ks' as [|k' rest'].
  - reflexivity.
  - by apply Permutation_nil_cons in Hperm.
  - symmetry in Hperm. by apply Permutation_nil_cons in Hperm.
  - simpl. f_equal.
    pose proof (max_loop_spec rest k) as H1. pose proof (max_loop_spec rest' k') as H2.
    cbv zeta in H1, H2.
    set (r := foldl _ k rest) in *. set (r' := foldl _ k' rest') in *.
    destruct H1 as (Hin & Hk & Hall). destruct H2 as (Hin' & Hk' & Hall').
    assert (Hr : r ∈ k' :: rest').
    { rewrite <- Hperm. destruct Hin as [->|Hin]; [left|by right]. }
    assert (Hr' : r' ∈ k :: rest).
    { rewrite Hperm. destruct Hin' as [->|Hin']; [left|by right]. }
    apply String.leb_antisym.
    + apply elem_of_cons in Hr as [->|Hr]; [exact Hk'|by apply Hall'].
    + apply elem_of_cons in Hr' as [->|Hr']; [exact Hk|by apply Hall].
Qed.

Lemma py_max_ignores_the_order_witness :
  py_max ["2023"; "2025"; "2024"] = py_max ["2025"; "2024"; "2023"].
Proof.
  apply py_max_ignores_the_order.
  apply (bool_decide_unpack _). vm_compute. exact I.
Defined.

Lemma main_cases s targets env w :
  (exists latest_rates data w',
      fetch_latest_rates_from_api targets (network env) = Ok (Some latest_rates)
      /\ latest_rates <> ∅
      /\ load_existing_data s targets (clock env) (ensure_docs_directory s w)
         = CurrencyRates data
      /\ main s targets env w = (w', 0%Z)
      /\ directories w' = {[ DOCS_DIR s ]} ∪ directories w
      /\ exists doc,
           files w'
           = <[metadata_file s := MetadataJson doc]>
               (<[latest_file s := Latest (latest_data (clock env) latest_rates)]>
                  (<[currency_file s :=
                       CurrencyRates (merge s targets (today (clock env))
                                        (current_year (clock env))
                                        (merge_stamp (clock env)) latest_rates data)]>
                     (files w))))
  \/ (main s targets env w = (ensure_docs_directory s w, 1%Z)
      /\ ~ exists latest_rates data,
             fetch_latest_rates_from_api targets (network env) = Ok (Some latest_rates)
             /\ latest_rates <> ∅
             /\ load_existing_data s targets (clock env) (ensure_docs_directory s w)
                = CurrencyRates data).
Proof.
  destruct (fetch_total targets (network env)) as [fetched Hfetch].
  unfold main, update_currency_data. rewrite Hfetch.
  destruct fetched as [latest_rates|].
  2:{ right. split; [done|]. intros (r & d & H & _). discriminate. }
  simpl. destruct (decide (latest_rates = ∅)) as [->|Hne].
  { rewrite bool_decide_eq_true_2 by done. right. split; [done|].
    intros (r & d & H & Hr & _). congruence. }
  rewrite bool_decide_eq_false_2 by done. simpl.
  destruct (load_existing_data s targets (clock env) (ensure_docs_directory s w))
    as [data| |] eqn:Hload.
  - left. exists latest_rates, data. unfold getsize. simpl.
    assert (Hcl : latest_file s <> currency_file s) by (destruct s; done).
    rewrite (lookup_insert_ne _ (latest_file s) (currency_file s)) by done.
    rewrite !lookup_insert_eq. eexists. repeat split; eauto.
  - right. destruct s; (split; [done|]); intros (r & d & _ & _ & H); discriminate.
  - right. destruct s; (split; [done|]); intros (r & d & _ & _ & H); discriminate.
Qed.

(** X9.  A run creates the docs directory and touches no file but the three
    documents; it either exits with 0 having written all three, or exits with
    1 having written none; it exits with 0 exactly when the fetch gave a
    non-empty dict and the loaded document is a dataset. *)
Theorem run_is_all_or_nothing s targets env w :
  let w' := (main s targets env w).1 in
  let code := (main s targets env w).2 in
  directories w' = {[ DOCS_DIR s ]} ∪ directories w
  /\ (forall path,
        path <> currency_file s -> path <> latest_file s -> path <> metadata_file s ->
        files w' !! path = files w !! path)
  /\ ((code = 0%Z
       /\ (exists data, files w' !! currency_file s = Some (CurrencyRates data))
       /\ (exists latest, files w' !! latest_file s = Some (Latest latest))
       /\ (exists doc, files w' !! metadata_file s = Some (MetadataJson doc)))
      \/ (code = 1%Z /\ files w' = files w))
  /\ (code = 0%Z
      <-> exists latest_rates data,
            fetch_latest_rates_from_api targets (network env) = Ok (Some latest_rates)
            /\ latest_rates <> ∅
            /\ load_existing_data s targets (clock env) (ensure_docs_directory s w)
               = CurrencyRates data).
Proof.
  intros w' code. unfold w', code.
  assert (Hcl : currency_file s <> latest_file s) by (destruct s; done).
  assert (Hcm : currency_file s <> metadata_file s) by (destruct s; done).
  assert (Hlm : latest_file s <> metadata_file s) by (destruct s; done).
  destruct (main_cases s targets env w)
    as [(latest_rates & data & w1 & Hfetch & Hne & Hload & Hmain & Hdirs & doc & Hfiles)
       |[Hmain Hnot]]; rewrite Hmain; simpl.
  - split; [exact Hdirs|]. split; [|split].
    + intros path H1 H2 H3. rewrite Hfiles.
      by rewrite !lookup_insert_ne by done.
    + left. split; [done|]. rewrite Hfiles. split; [|split].
      * eexists. rewrite !lookup_insert_ne by done. apply lookup_insert_eq.
      * eexists. rewrite lookup_insert_ne by done. apply lookup_insert_eq.
      * eexists. apply lookup_insert_eq.
    + split; [eauto|done].
  - split; [done|]. split; [done|]. split; [by right|].
    split; [discriminate|]. intros H. by destruct Hnot.
Qed.

Lemma load_after_write s targets clk w data :
  files w !! currency_file s = Some (CurrencyRates data) ->
  load_existing_data s targets clk (ensure_docs_directory s w) = CurrencyRates data.
Proof. intros H. unfold load_existing_data. simpl. by rewrite H. Qed.

(** X10.  What a successful run writes is what the next run loads: after two
    successful runs the dataset file holds the merge of the second fetch into
    the merge of the first. *)
Theorem runs_compose_as_merges s targets env1 env2 w rates1 rates2 data :
  load_existing_data s targets (clock env1) (ensure_docs_directory s w) = CurrencyRates data ->
  fetch_latest_rates_from_api targets (network env1) = Ok (Some rates1) ->
  rates1 <> ∅ ->
  fetch_latest_rates_from_api targets (network env2) = Ok (Some rates2) ->
  rates2 <> ∅ ->
  let merge_of env rates :=
    merge s targets (today (clock env)) (current_year (clock env))
          (merge_stamp (clock env)) rates in
  let w1 := (main s targets env1 w).1 in
  let w2 := (main s targets env2 w1).1 in
  load_existing_data s targets (clock env2) (ensure_docs_directory s w1)
  = CurrencyRates (merge_of env1 rates1 data)
  /\ (main s targets env2 w1).2 = 0%Z
  /\ files w2 !! currency_file s
     = Some (CurrencyRates (merge_of env2 rates2 (merge_of env1 rates1 data)))
  /\ files w2 !! latest_file s = Some (Latest (latest_data (clock env2) rates2)).
Proof.
  intros Hload Hf1 Hne1 Hf2 Hne2 merge_of w1 w2. unfold w2, w1, merge_of.
  destruct (update_run_success s targets env1 w rates1 data Hf1 Hne1 Hload)
    as (wa & fs & ls & Hmain1 & Hc1 & _ & _).
  rewrite Hmain1. simpl.
  pose proof (load_after_write s targets (clock env2) wa _ Hc1) as Hload2.
  destruct (update_run_success s targets env2 wa rates2 _ Hf2 Hne2 Hload2)
    as (wb & fs' & ls' & Hmain2 & Hc2 & Hl2 & _).
  rewrite Hmain2. simpl. done.
Qed.

Lemma runs_compose_as_merges_witness :
  let s := update_currency_data_py in
  let env := env_with (inr api_response) in
  let w1 := (main s TARGET_CURRENCIES env empty_world).1 in
  (main s TARGET_CURRENCIES env w1).2 = 0%Z.
Proof.
  intros s env w1.
  refine (proj1 (proj2 (runs_compose_as_merges s TARGET_CURRENCIES env env empty_world
                          {[ "USD" := JFloat 1.08; "GBP" := JFloat 0.86 ]}
                          {[ "USD" := JFloat 1.08; "GBP" := JFloat 0.86 ]}
                          (new_structure s TARGET_CURRENCIES sample_clock) _ _ _ _ _))).
  - reflexivity.
  - vm_compute. reflexivity.
  - apply insert_non_empty.
  - vm_compute. reflexivity.
  - apply insert_non_empty.
Defined.

Lemma keys_empty {V} : keys (∅ : gmap string V) = [].
Proof. unfold keys. by rewrite map_to_list_empty. Qed.

Lemma derive_latest_snapshot_cases stamp data :
  (rates_by_year data = ∅ /\ derive_latest_snapshot stamp data = Raise ValueError)
  \/ (exists year, greatest_key year (rates_by_year data)
                   /\ rates_by_year data !! year = Some ∅
                   /\ derive_latest_snapshot stamp data = Raise ValueError)
  \/ (exists year year_data key row,
        greatest_key year (rates_by_year data)
        /\ rates_by_year data !! year = Some year_data
        /\ greatest_key key year_data
        /\ year_data !! key = Some row
        /\ derive_latest_snapshot stamp data
           = Ok {| date := key;
                   latest_base_currency := "EUR";
                   rates := dict_of (non_null_entries (currencies (metadata data)) row);
                   latest_last_updated := stamp |}).
Proof.
  destruct (decide (rates_by_year data = ∅)) as [Hempty|Hne].
  { left. split; [done|]. unfold derive_latest_snapshot. by rewrite Hempty, keys_empty. }
  right. destruct (py_max_keys _ Hne) as [year [Hmax Hgy]].
  pose proof Hgy as [[year_data Hyd] _].
  destruct (decide (year_data = ∅)) as [->|Hdays].
  { left. exists year. split; [done|]. split; [done|].
    unfold derive_latest_snapshot, dict_getitem. rewrite Hmax. cbn [mbind result_bind].
    rewrite Hyd. cbn [mbind result_bind]. by rewrite keys_empty. }
  right. destruct (py_max_keys _ Hdays) as [key [Hmaxk Hgk]].
  pose proof Hgk as [[row Hrow] _].
  exists year, year_data, key, row. repeat (split; [done|]).
  unfold derive_latest_snapshot, dict_getitem.
  rewrite Hmax. cbn [mbind result_bind]. rewrite Hyd. cbn [mbind result_bind].
  rewrite Hmaxk. cbn [mbind result_bind]. rewrite Hrow. cbn [mbind result_bind].
  by rewrite latest_rates_loop_entries, drop_0.
Qed.

(** X11.  The snapshot derivation raises nothing but [ValueError], and raises
    it exactly when the data has no year or its greatest year has no day. *)
Theorem snapshot_fails_only_on_no_day stamp data :
  ((exists snapshot, derive_latest_snapshot stamp data = Ok snapshot)
   \/ derive_latest_snapshot stamp data = Raise ValueError)
  /\ (derive_latest_snapshot stamp data = Raise ValueError
      <-> rates_by_year data = ∅
          \/ exists year, greatest_key year (rates_by_year data)
                          /\ rates_by_year data !! year = Some ∅).
Proof.
  destruct (derive_latest_snapshot_cases stamp data)
    as [[Hempty Hd]|[(year & Hg & Hy & Hd)|(year & yd & key & row & Hg & Hy & Hgk & Hrow & Hd)]].
  - split; [by right|]. split; [by left|done].
  - split; [by right|]. split; [right; eauto|done].
  - split; [left; eauto|]. split.
    + rewrite Hd. discriminate.
    + intros [Hempty|(year' & Hg' & Hy')].
      * rewrite Hempty in Hy. by rewrite lookup_empty in Hy.
      * rewrite (greatest_key_unique _ _ _ Hg' Hg) in Hy'.
        rewrite Hy in Hy'. injection Hy' as ->.
        by rewrite lookup_empty in Hrow.
Qed.

(** X12.  Without the source file the bootstrap script stops with
    [FileNotFoundError] having written nothing; when the snapshot derivation
    raises [ValueError] the dataset is already copied and [latest.json] and
    [metadata.json] are as before; when it succeeds the three documents are
    written, the metadata carries the date of the snapshot, and no other file
    changes. *)
Theorem bootstrap_failures env w :
  let run := bootstrap_currency_pages env w in
  (files w !! source_file = None ->
   run = (makedirs docs_dir w, Raise FileNotFoundError))
  /\ (forall data,
        files w !! source_file = Some (CurrencyRates data) ->
        derive_latest_snapshot (latest_stamp (clock env)) data = Raise ValueError ->
        run.2 = Raise ValueError
        /\ files run.1 !! (docs_dir ++ "/currency_rates.json") = Some (CurrencyRates data)
        /\ files run.1 !! (docs_dir ++ "/latest.json") = files w !! (docs_dir ++ "/latest.json")
        /\ files run.1 !! (docs_dir ++ "/metadata.json")
           = files w !! (docs_dir ++ "/metadata.json"))
  /\ (forall w', run = (w', Ok tt) ->
        exists data latest doc,
          files w !! source_file = Some (CurrencyRates data)
          /\ files w' !! (docs_dir ++ "/currency_rates.json") = Some (CurrencyRates data)
          /\ files w' !! (docs_dir ++ "/latest.json") = Some (Latest latest)
          /\ files w' !! (docs_dir ++ "/metadata.json") = Some (MetadataJson doc)
          /\ doc_latest_date doc = date latest
          /\ forall path,
               path <> docs_dir ++ "/currency_rates.json" ->
               path <> docs_dir ++ "/latest.json" ->
               path <> docs_dir ++ "/metadata.json" ->
               files w' !! path = files w !! path).
Proof.
  intros run. unfold run. split; [|split].
  - intros Hsrc. unfold bootstrap_currency_pages. simpl. by rewrite Hsrc.
  - intros data Hsrc Hfail. unfold bootstrap_currency_pages. simpl.
    rewrite Hsrc, Hfail. simpl. split; [done|].
    rewrite lookup_insert_eq. split; [done|].
    by rewrite !lookup_insert_ne by done.
  - intros w' Hrun.
    destruct (bootstrap_run_documents env w w' Hrun)
      as (data & latest & fs & ls & Hsrc & Hl & Hc & Hlat & Hm).
    exists data, latest. eexists. split; [done|]. split; [done|]. split; [done|].
    split; [exact Hm|]. split; [done|].
    intros path H1 H2 H3. revert Hrun.
    unfold bootstrap_currency_pages. simpl. rewrite Hsrc, Hl. unfold getsize. simpl.
    rewrite (lookup_insert_ne _ (docs_dir ++ "/latest.json") (docs_dir ++ "/currency_rates.json"))
      by done.
    rewrite !lookup_insert_eq. intros [= <-]. simpl.
    by rewrite !lookup_insert_ne by done.
Qed.

Lemma comparison_eqb_eq c1 c2 : comparison_eqb c1 c2 = true -> c1 = c2.
Proof. by destruct c1, c2. Qed.

Lemma forallb_seq (P : nat -> bool) a n x :
  forallb P (seq a n) = true -> a <= x < a + n -> P x = true.
Proof.
  intros Hall Hx. rewrite forallb_forall in Hall. apply Hall, in_seq. lia.
Qed.

Lemma two_digits_table a b :
  a < 100 -> b < 100 ->
  String.length (zero_padded2 a) = 2
  /\ String.compare (zero_padded2 a) (zero_padded2 b) = Nat.compare a b.
Proof.
  intros Ha Hb.
  assert (Htable :
            forallb (fun a =>
              Nat.eqb (String.length (zero_padded2 a)) 2
              && forallb (fun b =>
                   comparison_eqb (String.compare (zero_padded2 a) (zero_padded2 b))
                                  (Nat.compare a b))
                 (seq 0 100))
            (seq 0 100) = true) by (vm_compute; reflexivity).
  pose proof (forallb_seq _ 0 100 a Htable ltac:(lia)) as Hrow. cbv beta in Hrow.
  apply andb_true_iff in Hrow as [Hlen Hrow].
  split; [by apply Nat.eqb_eq|].
  apply comparison_eqb_eq. apply (forallb_seq _ 0 100 b Hrow). lia.
Qed.

Lemma year_table y :
  1000 <= y < 10 * 1000 ->
  py_str y = zero_padded2 (y / 100) ++ zero_padded2 (y mod 100).
Proof.
  intros Hy.
  assert (Htable :
            forallb (fun y => String.eqb (py_str y)
                                (zero_padded2 (y / 100) ++ zero_padded2 (y mod 100)))
                    (seq 1000 (9 * 1000)) = true) by (vm_compute; reflexivity).
  apply String.eqb_eq. apply (forallb_seq _ 1000 (9 * 1000) y Htable). lia.
Qed.

Lemma compare_app s1 s2 t1 t2 :
  String.length s1 = String.length s2 ->
  String.compare (s1 ++ t1) (s2 ++ t2)
  = match String.compare s1 s2 with
    | Eq => String.compare t1 t2
    | c => c
    end.
Proof.
  revert s2. induction s1 as [|c1 s1 IH]; intros [|c2 s2] Hlen; try discriminate.
  - reflexivity.
  - simpl. destruct (Ascii.compare c1 c2); try reflexivity.
    apply IH. simpl in Hlen. lia.
Qed.

Lemma compare_refl s : String.compare s s = Eq.
Proof.
  destruct (String.compare s s) eqn:E; [done| |];
    pose proof (String.compare_antisym s s) as H; rewrite E in H; discriminate.
Qed.

Lemma length_app s t : String.length (s ++ t) = String.length s + String.length t.
Proof. induction s as [|c s IH]; simpl; [done|]. by rewrite IH. Qed.

Lemma str_slice_from_app s t : str_slice_from (String.length s) (s ++ t) = t.
Proof. induction s as [|c s IH]; simpl; [by destruct t|done]. Qed.

Lemma year_length y : 1000 <= y < 10 * 1000 -> String.length (py_str y) = 4.
Proof.
  intros Hy. rewrite (year_table y Hy), length_app.
  assert (y / 100 < 100) by (apply Nat.Div0.div_lt_upper_bound; lia).
  assert (y mod 100 < 100) by (apply Nat.mod_upper_bound; lia).
  destruct (two_digits_table (y / 100) 0) as [-> _]; [done|lia|].
  by destruct (two_digits_table (y mod 100) 0) as [-> _]; [done|lia|].
Qed.

Lemma year_compare y1 y2 :
  1000 <= y1 < 10 * 1000 -> 1000 <= y2 < 10 * 1000 ->
  String.compare (py_str y1) (py_str y2) = Nat.compare y1 y2.
Proof.
  intros H1 H2. rewrite (year_table y1 H1), (year_table y2 H2).
  assert (y1 / 100 < 100) by (apply Nat.Div0.div_lt_upper_bound; lia).
  assert (y2 / 100 < 100) by (apply Nat.Div0.div_lt_upper_bound; lia).
  assert (y1 mod 100 < 100) by (apply Nat.mod_upper_bound; lia).
  assert (y2 mod 100 < 100) by (apply Nat.mod_upper_bound; lia).
  destruct (two_digits_table (y1 / 100) (y2 / 100)) as [Hl1 Hc1]; [done..|].
  destruct (two_digits_table (y2 / 100) (y1 / 100)) as [Hl2 _]; [done..|].
  destruct (two_digits_table (y1 mod 100) (y2 mod 100)) as [_ Hc2]; [done..|].
  rewrite compare_app by congruence. rewrite Hc1, Hc2.
  pose proof (Nat.div_mod_eq y1 100). pose proof (Nat.div_mod_eq y2 100).
  destruct (Nat.compare_spec (y1 / 100) (y2 / 100));
    destruct (Nat.compare_spec (y1 mod 100) (y2 mod 100));
    symmetry; first [apply Nat.compare_eq_iff | apply Nat.compare_lt_iff
                    | apply Nat.compare_gt_iff]; lia.
Qed.

Lemma month_day_compare m1 d1 m2 d2 :
  m1 < 100 -> d1 < 100 -> m2 < 100 -> d2 < 100 ->
  String.compare (zero_padded2 m1 ++ "-" ++ zero_padded2 d1)
                 (zero_padded2 m2 ++ "-" ++ zero_padded2 d2)
  = match Nat.compare m1 m2 with
    | Eq => Nat.compare d1 d2
    | c => c
    end.
Proof.
  intros Hm1 Hd1 Hm2 Hd2.
  destruct (two_digits_table m1 m2) as [Hl1 Hc]; [done..|].
  destruct (two_digits_table m2 m1) as [Hl2 _]; [done..|].
  destruct (two_digits_table d1 d2) as [_ Hd]; [done..|].
  rewrite compare_app by congruence. rewrite Hc.
  destruct (Nat.compare m1 m2); try reflexivity.
  simpl. exact Hd.
Qed.

Lemma strftime_compare d1 d2 :
  four_digit_date d1 -> four_digit_date d2 ->
  String.compare (strftime_Ymd d1) (strftime_Ymd d2) = date_compare d1 d2.
Proof.
  intros (Hy1 & Hm1 & Hd1) (Hy2 & Hm2 & Hd2). unfold strftime_Ymd, date_compare.
  rewrite compare_app by (by rewrite !year_length).
  rewrite year_compare by done.
  destruct (Nat.compare (dt_year d1) (dt_year d2)); try reflexivity.
  change ("-" ++ ?x) with (String "-" x). cbn [String.compare Ascii.compare].
  change (String.compare (String "-" ?x) (String "-" ?y)) with (String.compare x y).
  apply month_day_compare; lia.
Qed.

Lemma month_day_of_strftime dt :
  four_digit_date dt ->
  day_key update_currency_data_py (strftime_Ymd dt)
  = zero_padded2 (dt_month dt) ++ "-" ++ zero_padded2 (dt_day dt).
Proof.
  intros (Hy & _). unfold day_key, strftime_Ymd.
  change 5 with (4 + 1). rewrite <- (year_length _ Hy).
  generalize (zero_padded2 (dt_month dt) ++ "-" ++ zero_padded2 (dt_day dt)).
  generalize (py_str (dt_year dt)).
  intros s t. induction s as [|c s IH]; [reflexivity|exact IH].
Qed.

(** X13.  For a date with a four-digit year, [today[5:]] is the month and the
    day, five characters; the year string, a dash and the day-key give
    [today] back, so the slot of update_currency_data.py names the date when
    [today] and [current_year] are read on the same day. *)
Theorem day_key_and_year_split_the_date dt :
  four_digit_date dt ->
  let today := strftime_Ymd dt in
  let current_year := py_str (dt_year dt) in
  day_key update_currency_data_py today
  = zero_padded2 (dt_month dt) ++ "-" ++ zero_padded2 (dt_day dt)
  /\ String.length (day_key update_currency_data_py today) = 5
  /\ String.length current_year = 4
  /\ current_year ++ "-" ++ day_key update_currency_data_py today = today
  /\ day_key update_and_deploy_py today = today
  /\ String.length today = 10.
Proof.
  intros (Hy & Hm & Hd) today current_year. unfold today, current_year.
  pose proof (year_length _ Hy) as Hlen.
  destruct (two_digits_table (dt_month dt) 0) as [Hlm _]; [lia..|].
  destruct (two_digits_table (dt_day dt) 0) as [Hld _]; [lia..|].
  pose proof (month_day_of_strftime dt (conj Hy (conj Hm Hd))) as Hkey.
  rewrite Hkey. repeat split.
  - rewrite !length_app, Hlm, Hld. reflexivity.
  - exact Hlen.
  - unfold strftime_Ymd. rewrite !length_app, Hlen, Hlm, Hld. reflexivity.
Qed.

Lemma day_key_and_year_split_the_date_witness :
  let dt := {| dt_year := 2024; dt_month := 3; dt_day := 15 |} in
  strftime_Ymd dt = "2024-03-15"
  /\ day_key update_currency_data_py (strftime_Ymd dt) = "03-15"
  /\ py_str (dt_year dt) ++ "-" ++ day_key update_currency_data_py (strftime_Ymd dt)
     = strftime_Ymd dt.
Proof.
  intros dt. split; [reflexivity|].
  destruct (day_key_and_year_split_the_date dt) as (Hkey & _ & _ & Hjoin & _).
  - unfold four_digit_date. simpl. lia.
  - split; [exact Hkey|exact Hjoin].
Defined.

(** X14.  For dates with a four-digit year the order of the date strings is
    the order of the calendar, the date string determines the date, and so do
    the month-day keys within a year and the year strings: the greatest key
    is the latest date. *)
Theorem date_keys_sort_chronologically d1 d2 :
  four_digit_date d1 -> four_digit_date d2 ->
  String.compare (strftime_Ymd d1) (strftime_Ymd d2) = date_compare d1 d2
  /\ (String.ltb (strftime_Ymd d1) (strftime_Ymd d2) = true <-> date_compare d1 d2 = Lt)
  /\ (strftime_Ymd d1 = strftime_Ymd d2 -> d1 = d2)
  /\ (dt_year d1 = dt_year d2 ->
      String.compare (day_key update_currency_data_py (strftime_Ymd d1))
                     (day_key update_currency_data_py (strftime_Ymd d2))
      = date_compare d1 d2)
  /\ String.compare (py_str (dt_year d1)) (py_str (dt_year d2))
     = Nat.compare (dt_year d1) (dt_year d2).
Proof.
  intros H1 H2. pose proof (strftime_compare d1 d2 H1 H2) as Hcmp.
  split; [exact Hcmp|]. split; [|split; [|split]].
  - unfold String.ltb. rewrite Hcmp. by destruct (date_compare d1 d2).
  - intros Heq. rewrite Heq, compare_refl in Hcmp. symmetry in Hcmp.
    unfold date_compare in Hcmp.
    destruct (Nat.compare_spec (dt_year d1) (dt_year d2)) as [Hy| |]; try discriminate.
    destruct (Nat.compare_spec (dt_month d1) (dt_month d2)) as [Hm| |]; try discriminate.
    apply Nat.compare_eq in Hcmp.
    destruct d1, d2; simpl in *; congruence.
  - intros Hy.
    rewrite (month_day_of_strftime d1 H1), (month_day_of_strftime d2 H2).
    destruct H1 as (_ & ? & ?), H2 as (_ & ? & ?).
    rewrite month_day_compare by lia.
    unfold date_compare. by rewrite Hy, Nat.compare_refl.
  - destruct H1 as (? & _), H2 as (? & _). by apply year_compare.
Qed.

Lemma date_keys_sort_chronologically_witness :
  let d1 := {| dt_year := 2023; dt_month := 12; dt_day := 29 |} in
  let d2 := {| dt_year := 2024; dt_month := 3; dt_day := 15 |} in
  String.ltb (strftime_Ymd d1) (strftime_Ymd d2) = true <-> date_compare d1 d2 = Lt.
Proof.
  intros d1 d2.
  refine (proj1 (proj2 (date_keys_sort_chronologically d1 d2 _ _)));
    unfold four_digit_date; simpl; lia.
Defined.

(** X15.  If the dataset file is absent or holds a dataset the script can
    hold, the same is true after a run, whatever its outcome. *)
Theorem run_keeps_the_dataset_file_ok s targets env w :
  dataset_file_ok s targets w ->
  dataset_file_ok s targets (main s targets env w).1.
Proof.
  intros Hok.
  destruct (main_cases s targets env w)
    as [(latest_rates & data & w1 & Hfetch & Hne & Hload & Hmain & Hdirs & doc & Hfiles)
       |[Hmain Hnot]]; rewrite Hmain; simpl; [|exact Hok].
  assert (Hcl : currency_file s <> latest_file s) by (destruct s; done).
  assert (Hcm : currency_file s <> metadata_file s) by (destruct s; done).
  unfold dataset_file_ok. rewrite Hfiles.
  rewrite !lookup_insert_ne by done. rewrite lookup_insert_eq.
  apply reachable_merge; [done|].
  unfold load_existing_data in Hload. simpl in Hload. unfold dataset_file_ok in Hok.
  destruct (files w !! currency_file s) as [[d| |]|]; try done.
  - by injection Hload as <-.
  - injection Hload as <-. apply reachable_new.
Qed.

Lemma run_keeps_the_dataset_file_ok_witness :
  dataset_file_ok update_currency_data_py TARGET_CURRENCIES
    (main update_currency_data_py TARGET_CURRENCIES (env_with (inr api_response))
          empty_world).1.
Proof.
  apply run_keeps_the_dataset_file_ok. exact I.
Defined.

(** X16.  After a run that exits with 0 the three documents agree: the
    snapshot and the metadata carry today's date, the row stored in today's
    slot is the snapshot's rates laid out on the allow-list, and the
    metadata's [total_records] is the counter of the dataset and the number
    of slots it holds. *)
Theorem successful_run_files_agree s targets env w :
  (main s targets env w).2 = 0%Z ->
  exists data latest doc row,
    files (main s targets env w).1 !! currency_file s = Some (CurrencyRates data)
    /\ files (main s targets env w).1 !! latest_file s = Some (Latest latest)
    /\ files (main s targets env w).1 !! metadata_file s = Some (MetadataJson doc)
    /\ date latest = today (clock env)
    /\ doc_latest_date doc = today (clock env)
    /\ rates latest <> ∅
    /\ lookup_row (rates_by_year data) (current_year (clock env))
                  (day_key s (today (clock env))) = Some row
    /\ (forall i currency,
          targets !! i = Some currency ->
          row !! i = Some (default JNull (rates latest !! currency)))
    /\ doc_total_records doc = total_records (metadata data)
    /\ doc_total_records doc = Z.of_nat (length (day_slots (rates_by_year data)))
    /\ last_updated (metadata data) = merge_stamp (clock env).
Proof.
  intros Hcode.
  destruct (main_cases s targets env w)
    as [(latest_rates & data & w1 & Hfetch & Hne & Hload & Hmain & Hdirs & doc & Hfiles)
       |[Hmain Hnot]]; rewrite Hmain in Hcode; simpl in Hcode; [|discriminate].
  destruct (update_run_success s targets env w latest_rates data Hfetch Hne Hload)
    as (w' & fs & ls & Hmain' & Hc & Hl & Hm).
  rewrite Hmain'. simpl.
  eexists _, _, _, _. split; [exact Hc|]. split; [exact Hl|]. split; [exact Hm|].
  split; [reflexivity|]. split; [reflexivity|]. split; [exact Hne|].
  split; [|split; [|split; [reflexivity|split]]].
  - rewrite merge_years, lookup_row_year_data, year_data_of_insert_eq.
    apply lookup_insert_eq.
  - intros i currency Hi. simpl. rewrite rates_array_fmap, list_lookup_fmap, Hi.
    reflexivity.
  - unfold metadata_json. cbn [doc_total_records].
    rewrite merge_total_records. symmetry. apply length_day_slots.
  - rewrite merge_eq. destruct s; reflexivity.
Qed.

Lemma successful_run_files_agree_witness :
  let run := main update_currency_data_py TARGET_CURRENCIES (env_with (inr api_response))
                  empty_world in
  exists data latest doc row,
    files run.1 !! currency_file update_currency_data_py = Some (CurrencyRates data)
    /\ files run.1 !! latest_file update_currency_data_py = Some (Latest latest)
    /\ files run.1 !! metadata_file update_currency_data_py = Some (MetadataJson doc)
    /\ date latest = "2024-03-15"
    /\ doc_latest_date doc = "2024-03-15"
    /\ rates latest <> ∅
    /\ lookup_row (rates_by_year data) "2024" "03-15" = Some row
    /\ (forall i currency,
          TARGET_CURRENCIES !! i = Some currency ->
          row !! i = Some (default JNull (rates latest !! currency)))
    /\ doc_total_records doc = total_records (metadata data)
    /\ doc_total_records doc = Z.of_nat (length (day_slots (rates_by_year data)))
    /\ last_updated (metadata data) = "2024-03-15T06:00:01.000002".
Proof.
  intros run.
  apply (successful_run_files_agree update_currency_data_py TARGET_CURRENCIES
           (env_with (inr api_response)) empty_world).
  vm_compute. reflexivity.
Defined.
